(** * MultiGateway: supervisor, bootstrap, command router, telnet executor

    A shallow embedding of
    [custom_components/xiaomi_gateway3/core/gateway.py].

    The Python methods are written in a small state-and-control monad [M]:
    the state is the gateway object's mutable part (listener registry,
    [main_task], task table) together with the trace of interactions with
    the collaborators that live outside this file (session shell, protocol
    adapters, [core_utils], [asyncio]).  Collaborators are an oracle
    [Env]: their answer may depend on the whole interaction history. *)

From stdpp Require Import gmap strings list fin_maps.
From Stdlib Require Import QArith.

#[local] Set Warnings "-register-all".
#[local] Open Scope string_scope.
#[local] Open Scope list_scope.

(** ** Python values *)

(** The dynamically typed values that flow through the gateway: JSON-like
    payload parts, and opaque objects of which only the attribute names
    matter ([hasattr]).  A nested dict keeps its insertion order. *)
Inductive value : Type :=
| VNone
| VBool (b : bool)
| VInt (z : Z)
| VStr (s : string)
| VList (l : list value)
| VDict (d : list (string * value))
| VObject (attrs : list string).

(** A command payload ([data: dict]) and the options map. *)
Abbreviation dict := (gmap string value).

(** [bool(v)] *)
Definition truthy (v : value) : bool :=
  match v with
  | VNone => false
  | VBool b => b
  | VInt z => negb (z =? 0)%Z
  | VStr s => negb (String.eqb s "")
  | VList l => match l with [] => false | _ => true end
  | VDict d => match d with [] => false | _ => true end
  | VObject _ => true
  end.

(** [v == s] for a string literal [s] *)
Definition eq_str (v : value) (s : string) : bool :=
  match v with VStr s' => String.eqb s' s | _ => false end.

(** [v is True], [v is False] *)
Definition is_True (v : value) : bool :=
  match v with VBool true => true | _ => false end.
Definition is_False (v : value) : bool :=
  match v with VBool false => true | _ => false end.

(** [hasattr(v, name)], for names that no builtin type defines *)
Definition hasattr (v : value) (name : string) : bool :=
  match v with VObject attrs => bool_decide (name ∈ attrs) | _ => false end.

(** [k in data] for the payload *)
Definition key_in (k : string) (data : dict) : bool :=
  bool_decide (is_Some (data !! k)).

(** [d.get(k)] *)
Definition dict_get (d : dict) (k : string) : value :=
  default VNone (d !! k).

(** Nested dicts: lookup and item assignment, insertion order kept. *)
Fixpoint assoc_get (k : string) (d : list (string * value)) : option value :=
  match d with
  | [] => None
  | (k', v) :: d' => if String.eqb k' k then Some v else assoc_get k d'
  end.

Fixpoint assoc_set (k : string) (v : value) (d : list (string * value))
  : list (string * value) :=
  match d with
  | [] => [(k, v)]
  | (k', v') :: d' =>
      if String.eqb k' k then (k, v) :: d' else (k', v') :: assoc_set k v d'
  end.

(** The one-character strings of a string, in order. *)
Fixpoint chars (s : string) : list value :=
  match s with
  | EmptyString => []
  | String a s' => VStr (String a EmptyString) :: chars s'
  end.

(** ** Exceptions and control flow *)

(** [CancelledError] derives from [BaseException]: [except Exception] does
    not catch it.  Everything else here is an [Exception]. *)
Inductive exn : Type :=
| KeyError (key : string)
| TypeError
| Exception (cls : string)
| CancelledError.

Definition is_Exception (e : exn) : bool :=
  match e with CancelledError => false | _ => true end.

(** How a block of statements ends.  [Unfinished] marks a loop that is
    still running when the fuel of the model is used up. *)
Inductive outcome (A : Type) : Type :=
| Normal (a : A)
| Returned (v : value)
| Raised (e : exn)
| Continue
| Unfinished.
Arguments Normal {A} a.
Arguments Returned {A} v.
Arguments Raised {A} e.
Arguments Continue {A}.
Arguments Unfinished {A}.

(** ** Devices, calls to collaborators, events *)

(** [device.type], compared with the constants of [const]. *)
Inductive DeviceType : Type :=
| GATEWAY | ZIGBEE | MESH | GROUP | MATTER | BLE.

Definition DeviceType_eqb (a b : DeviceType) : bool :=
  match a, b with
  | GATEWAY, GATEWAY | ZIGBEE, ZIGBEE | MESH, MESH
  | GROUP, GROUP | MATTER, MATTER | BLE, BLE => true
  | _, _ => false
  end.

Record XDevice : Type := { did : string; type : DeviceType }.

(** Every call that leaves this file, with its arguments. *)
Inductive call : Type :=
| check_port (host : string) (port : Z)
| core_utils_enable_telnet (host : string) (token key : value)
| sleep (delay : Q)
| handle_mqtt_messages
| Session_aenter (host : string)
| Session_aexit (sh : value)
| only_one (sh : value)
| get_miio_info (sh : value)
| get_version (sh : value)
| run_ftp (sh : value)
| reboot (sh : value)
| exec (sh : value) (cmd : string)
| check_firmware_lock (sh : value)
| lock_firmware (sh : value) (enable : bool)
| base_read_device (info : value)
| lumi_read_devices (sh : value)
| silabs_read_device (sh : value)
| openmiio_prepare_gateway (sh : value)
| ble_read_devices (sh : value)
| mesh_read_devices (sh : value)
| matter_read_devices (sh : value)
| lumi_send (device : XDevice) (data : dict)
| miot_send (device : XDevice) (data : dict)
| silabs_send (device : XDevice) (data : dict)
| matter_send (device : XDevice) (data : dict).

(** What a collaborator answers. *)
Inductive reply : Type :=
| Ok (v : value)
| Err (e : exn).

Inductive level : Type := DEBUG | ERROR.

Inductive Event : Type :=
| ECall (c : call) (r : reply)
| ELog (lvl : level) (msg : string) (data : option value) (exc_info : option exn)
| ECreateTask (task : nat)
| ECancel (task : nat).

(** ** Listener registry *)

Inductive EventKind : Type := EVENT_MQTT_PUBLISH | EVENT_TIMER.

Definition EventKind_eqb (a b : EventKind) : bool :=
  match a, b with
  | EVENT_MQTT_PUBLISH, EVENT_MQTT_PUBLISH | EVENT_TIMER, EVENT_TIMER => true
  | _, _ => false
  end.

(** The bound methods that are registered as handlers. *)
Inductive Handler : Type :=
| lumi_on_mqtt_publish
| miot_on_mqtt_publish
| openmiio_on_mqtt_publish
| silabs_on_mqtt_publish
| ble_on_mqtt_publish
| mesh_on_mqtt_publish
| matter_on_mqtt_publish
| openmiio_on_timer
| silabs_on_timer.

(** ** Tasks *)

(** An [asyncio.Task] as [stop] sees it. *)
Inductive TaskState : Type :=
| Pending
| CancelRequested
| Cancelled
| Finished.

Definition task_done (s : TaskState) : bool :=
  match s with Cancelled | Finished => true | _ => false end.

(** ** The gateway object and its environment *)

Record World : Type := {
  trace : list Event;
  listeners : EventKind → list Handler;
  main_task : option nat;
  tasks : list TaskState;
}.

(** The collaborators: [answer] is what a call returns or raises after the
    given history; [scheduled] is the state in which the event loop leaves
    a task that is not done while the caller is suspended. *)
Record Env : Type := {
  answer : list Event → call → reply;
  scheduled : list Event → nat → TaskState → TaskState;
}.

Record MultiGateway : Type := {
  host : string;
  options : dict;
}.

Definition M (A : Type) : Type := World → outcome A * World.

#[global] Instance M_ret : MRet M := λ A a w, (Normal a, w).

#[global] Instance M_bind : MBind M := λ A B k m w,
  match m w with
  | (Normal a, w') => k a w'
  | (Returned v, w') => (Returned v, w')
  | (Raised e, w') => (Raised e, w')
  | (Continue, w') => (Continue, w')
  | (Unfinished, w') => (Unfinished, w')
  end.

Definition record (ev : Event) (w : World) : World :=
  {| trace := trace w ++ [ev]; listeners := listeners w;
     main_task := main_task w; tasks := tasks w |}.

Definition set_listeners (l : EventKind → list Handler) (w : World) : World :=
  {| trace := trace w; listeners := l;
     main_task := main_task w; tasks := tasks w |}.

Definition set_tasks (ts : list TaskState) (w : World) : World :=
  {| trace := trace w; listeners := listeners w;
     main_task := main_task w; tasks := ts |}.

(** [pass] *)
Definition pass : M unit := mret tt.

(** [return v], [raise e], [continue] *)
Definition return_ {A} (v : value) : M A := λ w, (Returned v, w).
Definition raise {A} (e : exn) : M A := λ w, (Raised e, w).
Definition continue {A} : M A := λ w, (Continue, w).

(** The fuel of a loop is used up. *)
Definition unfinished {A} : M A := λ w, (Unfinished, w).

(** [if c: body] without [else] *)
Definition when (c : bool) (body : M unit) : M unit :=
  if c then body else pass.

(** A function body: [return v] gives [v], falling off the end gives
    [None]. *)
Definition def (body : M unit) : M value := λ w,
  match body w with
  | (Normal _, w') => (Normal VNone, w')
  | (Returned v, w') => (Normal v, w')
  | (Raised e, w') => (Raised e, w')
  | (Continue, w') => (Normal VNone, w')
  | (Unfinished, w') => (Unfinished, w')
  end.

(** [try: body except Exception as e: handler(e)] *)
Definition try_except (body : M unit) (handler : exn → M unit) : M unit := λ w,
  match body w with
  | (Raised e, w') =>
      if is_Exception e then handler e w' else (Raised e, w')
  | r => r
  end.

(** [body] followed by [exit] on every way out of [body]; what [exit]
    raises replaces the outcome of [body]. *)
Definition finally {A B} (body : M A) (exit : M B) : M A := λ w,
  match body w with
  | (Unfinished, w') => (Unfinished, w')
  | (r, w') =>
      match exit w' with
      | (Raised e, w'') => (Raised e, w'')
      | (_, w'') => (r, w'')
      end
  end.

(** [self.debug(msg, data=..., exc_info=...)], [self.error(...)]: a line
    of the log, kept in the trace; logging does not raise.  Where an
    f-string interpolates a value that is not a string, the literal part
    is [msg] and the value is [data]. *)
Definition debug (msg : string) (data : option value) (exc_info : option exn)
  : M unit := λ w, (Normal tt, record (ELog DEBUG msg data exc_info) w).
Definition error (msg : string) (data : option value) (exc_info : option exn)
  : M unit := λ w, (Normal tt, record (ELog ERROR msg data exc_info) w).

(** [d[k]] on the payload *)
Definition getitem (d : dict) (k : string) : M value :=
  match d !! k with
  | Some v => mret v
  | None => raise (KeyError k)
  end.

(** [v[k]] and [v[k] = x] on a value *)
Definition subscript (v : value) (k : string) : M value :=
  match v with
  | VDict d =>
      match assoc_get k d with
      | Some x => mret x
      | None => raise (KeyError k)
      end
  | _ => raise TypeError
  end.

Definition setitem (v : value) (k : string) (x : value) : M value :=
  match v with
  | VDict d => mret (VDict (assoc_set k x d))
  | _ => raise TypeError
  end.

(** [v < s] for a string literal [s] *)
Definition lt_str (v : value) (s : string) : M bool :=
  match v with
  | VStr s' => mret (String.ltb s' s)
  | _ => raise TypeError
  end.

(** [s in i]: key of a dict, element of a list, substring of a string;
    [None] where Python raises [TypeError]. *)
Definition member (s : string) (i : value) : option bool :=
  match i with
  | VDict d => Some (bool_decide (is_Some (assoc_get s d)))
  | VList l => Some (existsb (λ x, eq_str x s) l)
  | VStr s' => Some (bool_decide (is_Some (String.index 0 s s')))
  | _ => None
  end.

Definition contains (s : string) (i : value) : M bool :=
  match member s i with
  | Some b => mret b
  | None => raise TypeError
  end.

(** [for i in v]: the items that the iteration yields *)
Definition iterate (v : value) : M (list value) :=
  match v with
  | VList l => mret l
  | VDict d => mret (map (λ kv, VStr (fst kv)) d)
  | VStr s => mret (chars s)
  | _ => raise TypeError
  end.

(** [[i for i in items if s in i]] *)
Fixpoint comprehension (s : string) (items : list value) : M (list value) :=
  match items with
  | [] => mret []
  | i :: rest =>
      b ← contains s i;
      l ← comprehension s rest;
      mret (if b : bool then i :: l else l)
  end.

(** ** Event dispatcher and run-state *)

(** Modelled from the spec: [add_event_listner] is defined in
    [gate/base.py], which is not part of this file; section 4.3 says that
    it appends the handler to the ordered handler list of the event
    kind. *)
Definition add_event_listner (event : EventKind) (handler : Handler)
  : M unit := λ w,
  (Normal tt,
   set_listeners
     (λ k, if EventKind_eqb k event then listeners w k ++ [handler]
           else listeners w k)
     w).

(** [asyncio.create_task(coro)]: a new pending task; its handle is its
    index in the task table. *)
Definition create_task : M nat := λ w,
  let t := length (tasks w) in
  (Normal t, set_tasks (tasks w ++ [Pending]) (record (ECreateTask t) w)).

(** [task.cancelled()] *)
Definition cancelled (t : nat) : M bool := λ w,
  (Normal (match tasks w !! t with Some Cancelled => true | _ => false end),
   w).

(** [task.cancel()]: a request; a task that is done ignores it. *)
Definition cancel (t : nat) : M unit := λ w,
  (Normal tt,
   set_tasks
     (alter (λ s, if task_done s then s else CancelRequested) t (tasks w))
     (record (ECancel t) w)).

(** [self.main_task] and [self.main_task = t] *)
Definition get_main_task : M (option nat) := λ w, (Normal (main_task w), w).

Definition set_main_task (t : option nat) : M unit := λ w,
  (Normal tt,
   {| trace := trace w; listeners := listeners w;
      main_task := t; tasks := tasks w |}).

(** ** [start] *)

Definition start : M value :=
  def (
    task ← get_main_task;
    when (bool_decide (is_Some task)) (return_ VNone);;
    debug "start" None None;;
    task ← create_task;
    set_main_task (Some task)).

Section Gateway.

Variable env : Env.

(** While the caller is suspended in an [await], the event loop runs the
    other tasks: a task that is not done moves to the state the scheduler
    chooses; a task that is done stays as it is. *)
Definition suspend (w : World) : World :=
  set_tasks
    (imap (λ i s, if task_done s then s else scheduled env (trace w) i s)
          (tasks w))
    w.

(** An awaited call to a collaborator; the call and its answer are
    recorded in the trace. *)
Definition invoke (c : call) : M value := λ w,
  let r := answer env (trace w) c in
  let w' := suspend (record (ECall c r) w) in
  match r with
  | Ok v => (Normal v, w')
  | Err e => (Raised e, w')
  end.

(** ** [send] *)

Definition send (device : XDevice) (data : dict) : M value :=
  def (
    if DeviceType_eqb (type device) GATEWAY then
      when (key_in "cmd" data) (
        lumi_data ←
          (if key_in "method" data then
             cmd ← getitem data "cmd";
             params ← getitem data "params";
             items ← iterate params;
             filtered ← comprehension "res_name" items;
             mret ({[ "cmd" := cmd; "did" := VStr "lumi.0";
                      "params" := VList filtered ]} : dict)
           else mret data);
        invoke (lumi_send device lumi_data);; pass);;
      when (key_in "method" data) (
        miot_data ←
          (if key_in "cmd" data then
             method ← getitem data "method";
             params ← getitem data "params";
             items ← iterate params;
             filtered ← comprehension "siid" items;
             mret ({[ "method" := method; "params" := VList filtered ]} : dict)
           else mret data);
        invoke (miot_send device miot_data);; pass)
    else if DeviceType_eqb (type device) ZIGBEE then
      when (key_in "cmd" data) (
        lumi_data ←
          (if key_in "commands" data then
             cmd ← getitem data "cmd";
             did ← getitem data "did";
             params ← getitem data "params";
             mret ({[ "cmd" := cmd; "did" := did; "params" := params ]} : dict)
           else mret data);
        invoke (lumi_send device lumi_data);; pass);;
      when (key_in "commands" data) (
        silabs_data ←
          (if key_in "cmd" data then
             commands ← getitem data "commands";
             mret ({[ "commands" := commands ]} : dict)
           else mret data);
        invoke (silabs_send device silabs_data);; pass)
    else if DeviceType_eqb (type device) MESH
            || DeviceType_eqb (type device) GROUP then
      invoke (miot_send device data);; pass
    else if DeviceType_eqb (type device) MATTER then
      invoke (matter_send device data);; pass
    else pass).

(** ** [stop] *)

(** [while not self.main_task.cancelled(): ...], with fuel. *)
Fixpoint stop_loop (fuel : nat) : M unit :=
  match fuel with
  | O => unfinished
  | S fuel' =>
      task ← get_main_task;
      match task with
      | None => raise (Exception "AttributeError")
      | Some task =>
          c ← cancelled task;
          if negb c then
            cancel task;;
            invoke (sleep 0.1);;
            stop_loop fuel'
          else pass
      end
  end.

Definition stop (fuel : nat) : M value :=
  def (
    task ← get_main_task;
    when (negb (bool_decide (is_Some task))) (return_ VNone);;
    debug "stop" None None;;
    stop_loop fuel;;
    set_main_task None).

(** ** [enable_telnet] *)

Definition enable_telnet (self : MultiGateway) : M value :=
  def (
    let token := dict_get (options self) "token" in
    when (negb (truthy token)) (return_ (VBool false));;
    try_except (
      resp ← invoke (core_utils_enable_telnet (host self) token
                       (dict_get (options self) "key"));
      debug "enable_telnet" (Some resp) None;;
      return_ (VBool (eq_str resp "ok")))
    (λ e,
      debug "enable_telnet" None (Some e);;
      return_ (VBool false))).

(** ** [prepare_gateway] *)

(** [async with Session(host) as sh: body]: the session is released on
    every way out of the body.  [Session] is not part of this file: what
    [__aenter__] and [__aexit__] return or raise is left to the
    environment, and [__aexit__] is taken not to suppress an exception of
    the body. *)
Definition with_Session {A} (host : string) (body : value → M A) : M A :=
  sh ← invoke (Session_aenter host);
  finally (body sh) (invoke (Session_aexit sh)).

Definition prepare_gateway (self : MultiGateway) : M value :=
  def (
    try_except (
      '(sh, info) ← with_Session (host self) (λ sh,
        one ← invoke (only_one sh);
        when (negb (truthy one)) (
          debug "Connection from a second Hass detected" None None;;
          return_ (VBool false));;

        info ← invoke (get_miio_info sh);
        version ← invoke (get_version sh);
        info ← setitem info "version" version;

        model ← subscript info "model";
        unsupported ←
          (if eq_str model "lumi.gateway.mgl03" then
             version ← subscript info "version";
             lt_str version "1.4.7_0160"
           else mret false);
        when unsupported (
          error "Unsupported firmware: " (Some info) None;;
          return_ (VBool false));;

        invoke (base_read_device info);;
        invoke (lumi_read_devices sh);;
        invoke (silabs_read_device sh);;
        invoke (openmiio_prepare_gateway sh);;

        when (hasattr sh "read_db_bluetooth") (
          invoke (ble_read_devices sh);;
          invoke (mesh_read_devices sh);;
          pass);;

        model ← subscript info "model";
        when (eq_str model "lumi.gateway.mgl001") (
          invoke (matter_read_devices sh);;
          pass);;
        mret (sh, info));

      add_event_listner EVENT_MQTT_PUBLISH lumi_on_mqtt_publish;;
      add_event_listner EVENT_MQTT_PUBLISH miot_on_mqtt_publish;;
      add_event_listner EVENT_MQTT_PUBLISH openmiio_on_mqtt_publish;;
      add_event_listner EVENT_MQTT_PUBLISH silabs_on_mqtt_publish;;

      when (hasattr sh "read_db_bluetooth") (
        add_event_listner EVENT_MQTT_PUBLISH ble_on_mqtt_publish;;
        add_event_listner EVENT_MQTT_PUBLISH mesh_on_mqtt_publish);;

      model ← subscript info "model";
      when (eq_str model "lumi.gateway.mgl001") (
        add_event_listner EVENT_MQTT_PUBLISH matter_on_mqtt_publish);;

      add_event_listner EVENT_TIMER openmiio_on_timer;;
      add_event_listner EVENT_TIMER silabs_on_timer;;

      return_ (VBool true))
    (λ e,
      debug "Can't prepare gateway" None (Some e);;
      return_ (VBool false))).

(** The two halves of [prepare_gateway], named for the proofs: the
    statements inside the [async with] block, and the registrations after
    it ([prepare_gateway_parts] below shows that they make up the
    method). *)
Definition prepare_gateway_session (sh : value) : M (value * value) :=
  one ← invoke (only_one sh);
  when (negb (truthy one)) (
    debug "Connection from a second Hass detected" None None;;
    return_ (VBool false));;

  info ← invoke (get_miio_info sh);
  version ← invoke (get_version sh);
  info ← setitem info "version" version;

  model ← subscript info "model";
  unsupported ←
    (if eq_str model "lumi.gateway.mgl03" then
       version ← subscript info "version";
       lt_str version "1.4.7_0160"
     else mret false);
  when unsupported (
    error "Unsupported firmware: " (Some info) None;;
    return_ (VBool false));;

  invoke (base_read_device info);;
  invoke (lumi_read_devices sh);;
  invoke (silabs_read_device sh);;
  invoke (openmiio_prepare_gateway sh);;

  when (hasattr sh "read_db_bluetooth") (
    invoke (ble_read_devices sh);;
    invoke (mesh_read_devices sh);;
    pass);;

  model ← subscript info "model";
  when (eq_str model "lumi.gateway.mgl001") (
    invoke (matter_read_devices sh);;
    pass);;
  mret (sh, info).

Definition prepare_gateway_listeners (sh info : value) : M unit :=
  add_event_listner EVENT_MQTT_PUBLISH lumi_on_mqtt_publish;;
  add_event_listner EVENT_MQTT_PUBLISH miot_on_mqtt_publish;;
  add_event_listner EVENT_MQTT_PUBLISH openmiio_on_mqtt_publish;;
  add_event_listner EVENT_MQTT_PUBLISH silabs_on_mqtt_publish;;

  when (hasattr sh "read_db_bluetooth") (
    add_event_listner EVENT_MQTT_PUBLISH ble_on_mqtt_publish;;
    add_event_listner EVENT_MQTT_PUBLISH mesh_on_mqtt_publish);;

  model ← subscript info "model";
  when (eq_str model "lumi.gateway.mgl001") (
    add_event_listner EVENT_MQTT_PUBLISH matter_on_mqtt_publish);;

  add_event_listner EVENT_TIMER openmiio_on_timer;;
  add_event_listner EVENT_TIMER silabs_on_timer;;

  return_ (VBool true).

(** ** [run_forever] *)

(** [while True: body], with fuel. *)
Fixpoint while_True (fuel : nat) (body : M unit) : M unit := λ w,
  match fuel with
  | O => unfinished w
  | S fuel' =>
      match body w with
      | (Normal _, w') | (Continue, w') => while_True fuel' body w'
      | r => r
      end
  end.

(** Modelled from the spec: [handle_mqtt_messages] and the registry of
    event handlers are defined in [gate/base.py], which is not part of
    this file.  Section 4.1 says that the event-handling phase blocks until
    the connection drops or an unrecoverable error occurs; sections 3 and 5
    say that the registry is state of one connection cycle, entirely
    cleared on every reconnect cycle.  [prepare_gateway] has no clearing
    step of its own, so the clearing is placed where a connection cycle
    ends: the registry is empty when the phase is left, however it is
    left.  What the phase returns or raises is left to the environment. *)
Definition handle_mqtt_messages_phase : M value := λ w,
  let '(r, w') := invoke handle_mqtt_messages w in
  (r, set_listeners (λ _, []) w').

(** The body of the loop: one cycle of the supervisor. *)
Definition run_forever_cycle (self : MultiGateway) : M unit :=
  port_ok ← invoke (check_port (host self) 23);
  when (negb (truthy port_ok)) (
    enabled ← enable_telnet self;
    when (negb (truthy enabled)) (
      invoke (sleep 30);;
      continue));;

  prepared ← prepare_gateway self;
  when (negb (truthy prepared)) (
    invoke (sleep 60);;
    continue);;

  handle_mqtt_messages_phase;;
  pass.

Definition run_forever (self : MultiGateway) (fuel : nat) : M value :=
  def (while_True fuel (run_forever_cycle self)).

(** ** [telnet_command] *)

Definition telnet_command (self : MultiGateway) (cmd : string) : M value :=
  def (
    debug "telnet_command" (Some (VStr cmd)) None;;
    try_except (
      with_Session (host self) (λ sh,
        if String.eqb cmd "run_ftp" then
          invoke (run_ftp sh);;
          return_ (VBool true)
        else if String.eqb cmd "reboot" then
          invoke (reboot sh);;
          return_ (VBool true)
        else if String.eqb cmd "openmiio_restart" then
          invoke (exec sh "killall openmiio_agent");;
          invoke (sleep 1);;
          invoke (openmiio_prepare_gateway sh);;
          return_ (VBool true)
        else if String.eqb cmd "check_firmware_lock" then
          locked ← invoke (check_firmware_lock sh);
          return_ locked
        else if String.eqb cmd "lock_firmware" then
          invoke (lock_firmware sh true);;
          locked ← invoke (check_firmware_lock sh);
          return_ (VBool (is_True locked))
        else if String.eqb cmd "unlock_firmware" then
          invoke (lock_firmware sh false);;
          locked ← invoke (check_firmware_lock sh);
          return_ (VBool (is_False locked))
        else pass))
    (λ e,
      error ("Can't run telnet command: " ++ cmd) None (Some e))).

End Gateway.

(** ** Vocabulary of the properties *)

(** An item that supports [in]. *)
Definition container (i : value) : bool :=
  match i with VDict _ | VList _ | VStr _ => true | _ => false end.

(** The item passes the test [s in i]. *)
Definition tagged (s : string) (i : value) : bool :=
  match member s i with Some true => true | _ => false end.

(** The events that a run from [w] to [w'] has added to the trace. *)
Definition new_events (w w' : World) : list Event :=
  drop (length (trace w)) (trace w').

(** Some call of the run raised; some call of the run was cancelled. *)
Definition raised (evs : list Event) : bool :=
  existsb (λ ev, match ev with ECall _ (Err _) => true | _ => false end) evs.

Definition cancelled_in (evs : list Event) : bool :=
  existsb (λ ev, match ev with
                 | ECall _ (Err CancelledError) => true
                 | _ => false
                 end) evs.

(** Some call of the family was made in the run. *)
Definition performed (family : call → bool) (evs : list Event) : bool :=
  existsb (λ ev, match ev with ECall c _ => family c | _ => false end) evs.

(** Some call of the family returned a value that passes the test. *)
Definition replied (family : call → bool) (test : value → bool)
    (evs : list Event) : bool :=
  existsb (λ ev, match ev with
                 | ECall c (Ok v) => family c && test v
                 | _ => false
                 end) evs.

(** The same tests on one event. *)
Definition call_of (family : call → bool) (ev : Event) : bool :=
  match ev with ECall c _ => family c | _ => false end.

Definition reply_of (family : call → bool) (test : value → bool)
    (ev : Event) : bool :=
  match ev with ECall c (Ok v) => family c && test v | _ => false end.

Definition raise_of (ev : Event) : bool :=
  match ev with ECall _ (Err _) => true | _ => false end.

Definition cancel_of (ev : Event) : bool :=
  match ev with ECall _ (Err CancelledError) => true | _ => false end.

(** The calls of the bootstrap by family. *)
Definition session_open (c : call) : bool :=
  match c with Session_aenter _ => true | _ => false end.

Definition exclusion_check (c : call) : bool :=
  match c with only_one _ => true | _ => false end.

Definition info_fetch (c : call) : bool :=
  match c with get_miio_info _ => true | _ => false end.

Definition version_fetch (c : call) : bool :=
  match c with get_version _ => true | _ => false end.

Definition identity_fetch (c : call) : bool :=
  info_fetch c || version_fetch c.

Definition inventory_read (c : call) : bool :=
  match c with
  | base_read_device _ | lumi_read_devices _ | silabs_read_device _
  | openmiio_prepare_gateway _ | ble_read_devices _ | mesh_read_devices _
  | matter_read_devices _ => true
  | _ => false
  end.

Definition ble_mesh_read (c : call) : bool :=
  match c with ble_read_devices _ | mesh_read_devices _ => true | _ => false end.

Definition matter_read (c : call) : bool :=
  match c with matter_read_devices _ => true | _ => false end.

Definition lock_check (c : call) : bool :=
  match c with check_firmware_lock _ => true | _ => false end.

(** Tests on what the shell reports. *)
Definition falsy (v : value) : bool := negb (truthy v).

Definition model_is (model : string) (info : value) : bool :=
  match info with
  | VDict d =>
      match assoc_get "model" d with
      | Some m => eq_str m model
      | None => false
      end
  | _ => false
  end.

Definition has_model (info : value) : bool :=
  match info with
  | VDict d => bool_decide (is_Some (assoc_get "model" d))
  | _ => false
  end.

Definition has_bluetooth (sh : value) : bool :=
  hasattr sh "read_db_bluetooth".

Definition version_below (threshold : string) (v : value) : bool :=
  match v with VStr s => String.ltb s threshold | _ => false end.

Definition version_from (threshold : string) (v : value) : bool :=
  match v with VStr s => negb (String.ltb s threshold) | _ => false end.

(** The calls that [run_forever] awaits in its own body. *)
Definition loop_level (c : call) : bool :=
  match c with
  | check_port _ _ | sleep _ | handle_mqtt_messages => true
  | _ => false
  end.

(** The handlers that one bootstrap registers for an event kind, given
    whether the BLE/mesh branch and the Matter branch are taken. *)
Definition cycle_handlers (ble matter : bool) (k : EventKind) : list Handler :=
  match k with
  | EVENT_MQTT_PUBLISH =>
      [lumi_on_mqtt_publish; miot_on_mqtt_publish;
       openmiio_on_mqtt_publish; silabs_on_mqtt_publish]
      ++ (if ble then [ble_on_mqtt_publish; mesh_on_mqtt_publish] else [])
      ++ (if matter then [matter_on_mqtt_publish] else [])
  | EVENT_TIMER => [openmiio_on_timer; silabs_on_timer]
  end.

(** What [except Exception] makes of an exception that reaches it. *)
Definition caught (e : exn) : outcome value :=
  if is_Exception e then Normal (VBool false) else Raised e.

Definition caught_log (e : exn) : list Event :=
  if is_Exception e
  then [ELog DEBUG "Can't prepare gateway" None (Some e)]
  else [].

(** What the statements inside the [async with] block of
    [prepare_gateway] do for a shell [sh], in terms of how they end ([rb])
    and of the events they add ([evs]). *)
Definition session_facts (env : Env) (sh : value)
    (rb : outcome (value * value)) (evs : list Event) : Prop :=
  match rb with
  | Normal _ | Raised _ => True
  | Returned v => v = VBool false
  | _ => False
  end
  ∧ (∀ e, rb = Raised e →
          is_Exception e = true ∨ ∃ tr c, answer env tr c = Err e)
  ∧ (replied exclusion_check falsy evs = true →
     rb = Returned (VBool false)
     ∧ performed identity_fetch evs = false
     ∧ performed inventory_read evs = false)
  ∧ (replied info_fetch (model_is "lumi.gateway.mgl03") evs = true →
     replied version_fetch (version_below "1.4.7_0160") evs = true →
     rb = Returned (VBool false)
     ∧ performed inventory_read evs = false)
  ∧ (∀ x, rb = Normal x →
     ∃ info, x = (sh, info)
       ∧ has_model info = true
       ∧ raised evs = false
       ∧ performed ble_mesh_read evs = hasattr sh "read_db_bluetooth"
       ∧ performed matter_read evs = model_is "lumi.gateway.mgl001" info
       ∧ replied info_fetch (model_is "lumi.gateway.mgl001") evs
         = model_is "lumi.gateway.mgl001" info)
  ∧ (raised evs = false →
     replied exclusion_check falsy evs = false →
     replied info_fetch has_model evs = true →
     replied info_fetch (model_is "lumi.gateway.mgl03") evs = false
     ∨ replied version_fetch (version_from "1.4.7_0160") evs = true →
     ∃ info, rb = Normal (sh, info))
  ∧ (hasattr sh "read_db_bluetooth" = false →
     performed ble_mesh_read evs = false)
  ∧ performed session_open evs = false.

(** The calls of a family are made, in a successful bootstrap, exactly
    when the session object passes some fixed [hasattr] probe. *)
Definition probe_gated (family : call → bool) : Prop :=
  ∃ probe : string, ∀ env self w,
    (prepare_gateway env self w).1 = Normal (VBool true) →
    performed family (new_events w (prepare_gateway env self w).2)
    = replied session_open (λ sh, hasattr sh probe)
        (new_events w (prepare_gateway env self w).2).

(** Every task that is not done is the one recorded in [main_task]. *)
Definition single_live (w : World) : Prop :=
  ∀ i s, tasks w !! i = Some s → task_done s = false → main_task w = Some i.

(** The tasks that are not done. *)
Definition live_tasks (w : World) : list TaskState :=
  List.filter (λ s, negb (task_done s)) (tasks w).

(** The rounds of the polling loop of [stop]: a cancellation request,
    then a sleep of a tenth of a second. *)
Inductive polling (task : nat) : list Event → Prop :=
| polling_done : polling task []
| polling_round (r : reply) (evs : list Event) :
    polling task evs →
    polling task (ECancel task :: ECall (sleep 0.1) r :: evs).






(** The exception of the last call of the run that raised. *)
Fixpoint last_raise (evs : list Event) : option exn :=
  match evs with
  | [] => None
  | ev :: evs' =>
      match last_raise evs', ev with
      | Some e, _ => Some e
      | None, ECall _ (Err e) => Some e
      | None, _ => None
      end
  end.


(** The calls of a run, in the order in which they were made. *)
Fixpoint calls_of (evs : list Event) : list call :=
  match evs with
  | [] => []
  | ECall c _ :: evs' => c :: calls_of evs'
  | _ :: evs' => calls_of evs'
  end.

Definition session_close (c : call) : bool :=
  match c with Session_aexit _ => true | _ => false end.

(** The session object that [Session.__aenter__] has handed to the run. *)
Fixpoint opened_session (evs : list Event) : option value :=
  match evs with
  | [] => None
  | ECall (Session_aenter _) (Ok sh) :: _ => Some sh
  | _ :: evs' => opened_session evs'
  end.

(** How often a call of the family was made in the run. *)
Definition times (family : call → bool) (evs : list Event) : nat :=
  length (List.filter family (calls_of evs)).

(** The run works inside one [async with Session(host)] block: the first
    call asks for the session; when the session is handed out, the last
    call releases that session, and no other session is asked for or
    released in between. *)
Definition session_scoped (host : string) (evs : list Event) : Prop :=
  head (calls_of evs) = Some (Session_aenter host)
  ∧ times session_open evs = 1%nat
  ∧ match opened_session evs with
    | Some sh =>
        last (calls_of evs) = Some (Session_aexit sh)
        ∧ times session_close evs = 1%nat
    | None => calls_of evs = [Session_aenter host]
    end.

Definition is_str (v : value) : bool :=
  match v with VStr _ => true | _ => false end.

(** The calls that [telnet_command] makes for a command inside its
    session, when none of them raises. *)
Definition telnet_calls (cmd : string) (sh : value) : list call :=
  if String.eqb cmd "run_ftp" then [run_ftp sh]
  else if String.eqb cmd "reboot" then [reboot sh]
  else if String.eqb cmd "openmiio_restart" then
    [exec sh "killall openmiio_agent"; sleep 1; openmiio_prepare_gateway sh]
  else if String.eqb cmd "check_firmware_lock" then [check_firmware_lock sh]
  else if String.eqb cmd "lock_firmware" then
    [lock_firmware sh true; check_firmware_lock sh]
  else if String.eqb cmd "unlock_firmware" then
    [lock_firmware sh false; check_firmware_lock sh]
  else [].

(** The calls of a bootstrap inside its session, when none of them raises
    and neither gate closes: the exclusion check, the identity, then the
    inventories in the order of the source. *)
Definition bootstrap_calls (sh info : value) : list call :=
  [only_one sh; get_miio_info sh; get_version sh; base_read_device info;
   lumi_read_devices sh; silabs_read_device sh; openmiio_prepare_gateway sh]
  ++ (if has_bluetooth sh then [ble_read_devices sh; mesh_read_devices sh]
      else [])
  ++ (if model_is "lumi.gateway.mgl001" info then [matter_read_devices sh]
      else []).

Definition lacks_model (info : value) : bool := negb (has_model info).

Definition not_str (v : value) : bool := negb (is_str v).

(** More of what the statements inside the [async with] block of
    [prepare_gateway] do: the order of their calls, what they need to
    complete, and how they end on an identity that cannot be read. *)
Definition session_order (sh : value) (rb : outcome (value * value))
    (evs : list Event) : Prop :=
  performed session_close evs = false
  ∧ (∀ x, rb = Normal x →
     ∃ d version,
       x = (sh, VDict (assoc_set "version" version d))
       ∧ calls_of evs
         = bootstrap_calls sh (VDict (assoc_set "version" version d))
       ∧ ECall (get_miio_info sh) (Ok (VDict d)) ∈ evs
       ∧ ECall (get_version sh) (Ok version) ∈ evs
       ∧ replied exclusion_check falsy evs = false
       ∧ replied info_fetch has_model evs = true
       ∧ (replied info_fetch (model_is "lumi.gateway.mgl03") evs = false
          ∨ replied version_fetch (version_from "1.4.7_0160") evs = true))
  ∧ (∀ e, rb = Raised e →
     (e = CancelledError → cancelled_in evs = true)
     ∧ (raised evs = false →
        (e = TypeError ∨ e = KeyError "model")
        ∧ performed inventory_read evs = false))
  ∧ (replied info_fetch lacks_model evs = true →
     performed inventory_read evs = false ∧ ∃ e, rb = Raised e)
  ∧ (replied info_fetch (model_is "lumi.gateway.mgl03") evs = true →
     replied version_fetch not_str evs = true →
     performed inventory_read evs = false ∧ rb = Raised TypeError).

(** The firmware version starts with the given characters. *)
Definition version_prefix (p : string) (v : value) : bool :=
  match v with VStr s => String.prefix p s | _ => false end.

(** ** Sample worlds and environments *)

Definition initial : World :=
  {| trace := []; listeners := λ _, []; main_task := None; tasks := [] |}.

Definition gw : MultiGateway :=
  {| host := "192.168.1.10"; options := {[ "token" := VStr "0123abcd" ]} |}.

(** A gateway whose shell has the attributes [attrs], reports [model] and
    [version], answers [one] to [only_one]; the port is open and every other
    call returns [None].  The scheduler cancels a task on request. *)
Definition shell_env (model version : string) (attrs : list string)
    (one : bool) : Env :=
  {| answer := λ _ c,
       match c with
       | Session_aenter _ => Ok (VObject attrs)
       | only_one _ => Ok (VBool one)
       | get_miio_info _ => Ok (VDict [("model", VStr model)])
       | get_version _ => Ok (VStr version)
       | check_port _ _ => Ok (VBool true)
       | _ => Ok VNone
       end;
     scheduled := λ _ _ s,
       match s with CancelRequested => Cancelled | _ => s end |}.

Definition mgl03_env : Env :=
  shell_env "lumi.gateway.mgl03" "1.5.0_0026" ["read_db_bluetooth"] true.

(** The telnet port is closed and cannot be opened. *)
Definition unreachable_env : Env :=
  {| answer := λ _ c,
       match c with
       | check_port _ _ => Ok (VBool false)
       | core_utils_enable_telnet _ _ _ => Ok (VStr "error")
       | _ => Ok VNone
       end;
     scheduled := λ _ _ s, s |}.

(** Another manager holds the gateway. *)
Definition conflict_env : Env :=
  shell_env "lumi.gateway.mgl03" "1.5.0_0026" ["read_db_bluetooth"] false.

(** A Multimode gateway with a firmware older than the supported one. *)
Definition old_firmware_env : Env :=
  shell_env "lumi.gateway.mgl03" "1.4.6_0012" ["read_db_bluetooth"] true.


(** A gateway whose firmware lock check reports the given value. *)
Definition lock_env (locked : value) : Env :=
  {| answer := λ _ c,
       match c with
       | Session_aenter _ => Ok (VObject [])
       | check_firmware_lock _ => Ok locked
       | _ => Ok VNone
       end;
     scheduled := λ _ _ s, s |}.

Definition lamp : XDevice := {| did := "lumi.158d0001"; type := ZIGBEE |}.
Definition hub : XDevice := {| did := "lumi.0"; type := GATEWAY |}.

Definition zigbee_multispec : dict :=
  {[ "cmd" := VStr "write"; "did" := VStr "lumi.158d0001";
     "params" := VList [VDict [("res_name", VStr "4.1.85"); ("value", VInt 1)]];
     "commands" := VList [VDict [("endpoint", VInt 1); ("cluster", VStr "on_off")]] ]}.

Definition hub_params : list value :=
  [VDict [("res_name", VStr "8.0.2109"); ("value", VInt 60)];
   VDict [("siid", VInt 3); ("piid", VInt 1); ("value", VInt 60)]].

Definition hub_multispec : dict :=
  {[ "cmd" := VStr "write"; "method" := VStr "set_properties";
     "params" := VList hub_params ]}.

Definition bulb : XDevice := {| did := "1234567890"; type := MESH |}.
Definition thermometer : XDevice := {| did := "blt.3.abc"; type := BLE |}.

Definition gw_without_token : MultiGateway :=
  {| host := "192.168.1.10"; options := ∅ |}.

(** The telnet port is closed; the gateway opens it on request. *)
Definition telnet_env : Env :=
  {| answer := λ _ c,
       match c with
       | check_port _ _ => Ok (VBool false)
       | core_utils_enable_telnet _ _ _ => Ok (VStr "ok")
       | Session_aenter _ => Ok (VObject [])
       | only_one _ => Ok (VBool true)
       | get_miio_info _ => Ok (VDict [("model", VStr "lumi.gateway.aqcn02")])
       | get_version _ => Ok (VStr "4.0.4_0055")
       | _ => Ok VNone
       end;
     scheduled := λ _ _ s, s |}.

(** A gateway whose device information has no model. *)
Definition anonymous_env : Env :=
  {| answer := λ _ c,
       match c with
       | Session_aenter _ => Ok (VObject [])
       | only_one _ => Ok (VBool true)
       | get_miio_info _ => Ok (VDict [("fw_ver", VStr "1.5.0_0026")])
       | get_version _ => Ok (VStr "1.5.0_0026")
       | _ => Ok VNone
       end;
     scheduled := λ _ _ s, s |}.

(** A Multimode gateway that reports no firmware version. *)
Definition versionless_env : Env :=
  {| answer := λ _ c,
       match c with
       | Session_aenter _ => Ok (VObject ["read_db_bluetooth"])
       | only_one _ => Ok (VBool true)
       | get_miio_info _ => Ok (VDict [("model", VStr "lumi.gateway.mgl03")])
       | _ => Ok VNone
       end;
     scheduled := λ _ _ s, s |}.

(** The gateway object when its task has ended by itself. *)
Definition after_crash : World :=
  {| trace := []; listeners := λ _, []; main_task := Some 0%nat;
     tasks := [Finished] |}.

(** The telnet port cannot be probed: the network is down. *)
Definition offline_env : Env :=
  {| answer := λ _ c,
       match c with
       | check_port _ _ => Err (Exception "OSError")
       | _ => Ok VNone
       end;
     scheduled := λ _ _ s, s |}.

(** A Multimode gateway whose firmware has a two-digit patch number. *)
Definition patch10_env : Env :=
  shell_env "lumi.gateway.mgl03" "1.4.10_0002" ["read_db_bluetooth"] true.

(** The telnet port is closed. *)
Definition closed_env : Env :=
  {| answer := λ _ c,
       match c with
       | check_port _ _ => Ok (VBool false)
       | _ => Ok VNone
       end;
     scheduled := λ _ _ s, s |}.

(** The legacy adapter does not answer in time. *)
Definition broken_adapter_env : Env :=
  {| answer := λ _ c,
       match c with
       | lumi_send _ _ => Err (Exception "TimeoutError")
       | _ => Ok VNone
       end;
     scheduled := λ _ _ s, s |}.

(** The exclusion check is cancelled, and the release of the session
    then fails. *)
Definition interrupted_env : Env :=
  {| answer := λ _ c,
       match c with
       | Session_aenter _ => Ok (VObject [])
       | only_one _ => Err CancelledError
       | Session_aexit _ => Err (Exception "ConnectionResetError")
       | _ => Ok VNone
       end;
     scheduled := λ _ _ s, s |}.

(** * Properties *)

(** ** Stepping through the monad *)

Lemma key_in_Some k (data : dict) v : data !! k = Some v → key_in k data = true.
Proof. intros H. unfold key_in. rewrite H. reflexivity. Qed.

Lemma key_in_None k (data : dict) : data !! k = None → key_in k data = false.
Proof. intros H. unfold key_in. rewrite H. reflexivity. Qed.

Lemma comprehension_filter s items w :
  Forall (λ i, container i = true) items →
  comprehension s items w = (Normal (List.filter (tagged s) items), w).
Proof.
  induction 1 as [|i items Hi _ IH]; [reflexivity|].
  cbn [comprehension List.filter]. unfold tagged, contains, mbind, M_bind.
  destruct i; try discriminate Hi; cbn [member];
    (cbn; rewrite IH;
     match goal with |- context [bool_decide ?P] => destruct (bool_decide P)
     | |- context [existsb ?f ?l] => destruct (existsb f l) end;
     reflexivity).
Qed.

(** Unfolding of the monad's operations, for proofs that run a method on
    a symbolic world. *)
Ltac munfold :=
  unfold def, when, try_except, pass, return_, raise, continue, debug, error,
    getitem, mbind, M_bind, mret, M_ret in *.

(** ** Command router *)

(** C4: for a Zigbee end-device, a payload with both [commands] and the
    legacy [cmd]/[did]/[params] triple makes exactly two adapter calls,
    [lumi_send] with exactly the triple and (once that call has returned)
    [silabs_send] with exactly the [commands] entry; with only one of the
    two discriminators the payload goes unmodified to that adapter alone. *)
Theorem send_zigbee_fanout (env : Env) (device : XDevice) (data : dict)
    (w : World) :
  type device = ZIGBEE →
  (∀ cmd did params commands r1,
      data !! "cmd" = Some cmd → data !! "did" = Some did →
      data !! "params" = Some params → data !! "commands" = Some commands →
      let lumi_data : dict :=
        {[ "cmd" := cmd; "did" := did; "params" := params ]} in
      let silabs_data : dict := {[ "commands" := commands ]} in
      answer env (trace w) (lumi_send device lumi_data) = Ok r1 →
      (∃ r2, trace (send env device data w).2 =
               trace w ++ [ECall (lumi_send device lumi_data) (Ok r1);
                           ECall (silabs_send device silabs_data) r2])
      ∧ dom lumi_data = ({[ "cmd"; "did"; "params" ]} : gset string)
      ∧ dom silabs_data = ({[ "commands" ]} : gset string))
  ∧ (is_Some (data !! "cmd") → data !! "commands" = None →
     ∃ r, trace (send env device data w).2 =
            trace w ++ [ECall (lumi_send device data) r])
  ∧ (data !! "cmd" = None → is_Some (data !! "commands") →
     ∃ r, trace (send env device data w).2 =
            trace w ++ [ECall (silabs_send device data) r]).
Proof.
  intros Hty. split; [|split].
  - intros cmd did params commands r1 Hcmd Hdid Hparams Hcommands
      lumi_data silabs_data Hr1.
    split; [|split; [subst lumi_data|subst silabs_data]].
    + unfold send. rewrite Hty. cbn [DeviceType_eqb].
      rewrite (key_in_Some _ _ _ Hcmd), (key_in_Some _ _ _ Hcommands).
      munfold. rewrite Hcmd, Hdid, Hparams, Hcommands.
      unfold invoke. fold lumi_data. rewrite Hr1. cbn.
      destruct (answer env _ (silabs_send _ _)); eexists; cbn;
        rewrite <- app_assoc; reflexivity.
    + rewrite !dom_insert_L, dom_singleton_L. set_solver.
    + apply dom_singleton_L.
  - intros [cmd Hcmd] Hcommands.
    unfold send. rewrite Hty. cbn [DeviceType_eqb].
    rewrite (key_in_Some _ _ _ Hcmd), (key_in_None _ _ Hcommands).
    munfold. unfold invoke.
    destruct (answer env _ _); eexists; reflexivity.
  - intros Hcmd [commands Hcommands].
    unfold send. rewrite Hty. cbn [DeviceType_eqb].
    rewrite (key_in_None _ _ Hcmd), (key_in_Some _ _ _ Hcommands).
    munfold. unfold invoke.
    destruct (answer env _ _); eexists; reflexivity.
Qed.

Lemma send_zigbee_fanout_witness :
  ∃ r2, trace (send mgl03_env lamp zigbee_multispec initial).2 =
    [ECall (lumi_send lamp
              {[ "cmd" := VStr "write"; "did" := VStr "lumi.158d0001";
                 "params" := VList [VDict [("res_name", VStr "4.1.85");
                                           ("value", VInt 1)]] ]})
           (Ok VNone);
     ECall (silabs_send lamp
              {[ "commands" := VList [VDict [("endpoint", VInt 1);
                                             ("cluster", VStr "on_off")]] ]})
           r2].
Proof.
  destruct (send_zigbee_fanout mgl03_env lamp zigbee_multispec initial eq_refl)
    as [Hboth _].
  destruct (Hboth _ _ _ _ VNone eq_refl eq_refl eq_refl eq_refl eq_refl)
    as [Htrace _].
  exact Htrace.
Defined.

(** C5: for the gateway itself, a payload with [cmd] goes to [lumi_send]
    and a payload with [method] goes to [miot_send]; with both keys both
    calls are made (the second once the first has returned), the legacy
    one with the parameter entries that carry [res_name] and the cloud one
    with those that carry [siid]; with one key only, that adapter alone is
    called, with the payload as it is. *)
Theorem send_gateway_fanout (env : Env) (device : XDevice) (data : dict)
    (w : World) :
  type device = GATEWAY →
  (∀ cmd method ps r1,
      data !! "cmd" = Some cmd → data !! "method" = Some method →
      data !! "params" = Some (VList ps) →
      Forall (λ i, container i = true) ps →
      let lumi_data : dict :=
        {[ "cmd" := cmd; "did" := VStr "lumi.0";
           "params" := VList (List.filter (tagged "res_name") ps) ]} in
      let miot_data : dict :=
        {[ "method" := method;
           "params" := VList (List.filter (tagged "siid") ps) ]} in
      answer env (trace w) (lumi_send device lumi_data) = Ok r1 →
      ∃ r2, trace (send env device data w).2 =
              trace w ++ [ECall (lumi_send device lumi_data) (Ok r1);
                          ECall (miot_send device miot_data) r2])
  ∧ (is_Some (data !! "cmd") → data !! "method" = None →
     ∃ r, trace (send env device data w).2 =
            trace w ++ [ECall (lumi_send device data) r])
  ∧ (data !! "cmd" = None → is_Some (data !! "method") →
     ∃ r, trace (send env device data w).2 =
            trace w ++ [ECall (miot_send device data) r]).
Proof.
  intros Hty. split; [|split].
  - intros cmd method ps r1 Hcmd Hmethod Hparams Hps lumi_data miot_data Hr1.
    unfold send. rewrite Hty. cbn [DeviceType_eqb].
    rewrite (key_in_Some _ _ _ Hcmd), (key_in_Some _ _ _ Hmethod).
    munfold. rewrite Hcmd, Hmethod, Hparams. cbn [iterate]. munfold.
    rewrite !comprehension_filter by exact Hps.
    unfold invoke. fold lumi_data. rewrite Hr1. cbn.
    rewrite !comprehension_filter by exact Hps.
    destruct (answer env _ (miot_send _ _)); eexists; cbn;
      rewrite <- app_assoc; reflexivity.
  - intros [cmd Hcmd] Hmethod.
    unfold send. rewrite Hty. cbn [DeviceType_eqb].
    rewrite (key_in_Some _ _ _ Hcmd), (key_in_None _ _ Hmethod).
    munfold. unfold invoke.
    destruct (answer env _ _); eexists; reflexivity.
  - intros Hcmd [method Hmethod].
    unfold send. rewrite Hty. cbn [DeviceType_eqb].
    rewrite (key_in_None _ _ Hcmd), (key_in_Some _ _ _ Hmethod).
    munfold. unfold invoke.
    destruct (answer env _ _); eexists; reflexivity.
Qed.

Lemma send_gateway_fanout_witness :
  ∃ r2, trace (send mgl03_env hub hub_multispec initial).2 =
    [ECall (lumi_send hub
              {[ "cmd" := VStr "write"; "did" := VStr "lumi.0";
                 "params" := VList [VDict [("res_name", VStr "8.0.2109");
                                           ("value", VInt 60)]] ]})
           (Ok VNone);
     ECall (miot_send hub
              {[ "method" := VStr "set_properties";
                 "params" := VList [VDict [("siid", VInt 3); ("piid", VInt 1);
                                           ("value", VInt 60)]] ]})
           r2].
Proof.
  destruct (send_gateway_fanout mgl03_env hub hub_multispec initial eq_refl)
    as [Hboth _].
  refine (Hboth (VStr "write") (VStr "set_properties") hub_params VNone
            eq_refl eq_refl eq_refl _ eq_refl).
  repeat constructor.
Defined.

(** C10: the multispec branches of [send] read their keys without a
    test.  For the gateway itself, [cmd] and [method] without [params]
    raise [KeyError]; for a Zigbee device, [cmd] and [commands] without
    [did] or without [params] raise [KeyError]; in both cases no adapter is
    called and nothing else changes. *)
Theorem send_multispec_missing_key (env : Env) (device : XDevice)
    (data : dict) (w : World) :
  is_Some (data !! "cmd") →
  (type device = GATEWAY → is_Some (data !! "method") →
   data !! "params" = None →
   send env device data w = (Raised (KeyError "params"), w))
  ∧ (type device = ZIGBEE → is_Some (data !! "commands") →
     data !! "did" = None ∨ data !! "params" = None →
     ∃ k, (k = "did" ∨ k = "params") ∧ data !! k = None
          ∧ send env device data w = (Raised (KeyError k), w)).
Proof.
  intros [cmd Hcmd]. split.
  - intros Hty [method Hmethod] Hparams.
    unfold send. rewrite Hty. cbn [DeviceType_eqb].
    rewrite (key_in_Some _ _ _ Hcmd), (key_in_Some _ _ _ Hmethod).
    munfold. rewrite Hcmd, Hparams. reflexivity.
  - intros Hty [commands Hcommands] Hmissing.
    unfold send. rewrite Hty. cbn [DeviceType_eqb].
    rewrite (key_in_Some _ _ _ Hcmd), (key_in_Some _ _ _ Hcommands).
    munfold. rewrite Hcmd.
    destruct (data !! "did") as [did|] eqn:Hdid.
    + destruct Hmissing as [Hm|Hm]; [discriminate Hm|].
      exists "params". rewrite Hm. auto.
    + exists "did". auto.
Qed.

Lemma send_multispec_missing_key_witness :
  send mgl03_env hub
    {[ "cmd" := VStr "write"; "method" := VStr "set_properties" ]} initial
  = (Raised (KeyError "params"), initial)
  ∧ ∃ k, send mgl03_env lamp
           {[ "cmd" := VStr "write"; "commands" := VList [] ]} initial
         = (Raised (KeyError k), initial).
Proof.
  split.
  - refine (proj1 (send_multispec_missing_key mgl03_env hub
              {[ "cmd" := VStr "write"; "method" := VStr "set_properties" ]}
              initial _) eq_refl _ eq_refl).
    + exists (VStr "write"). reflexivity.
    + exists (VStr "set_properties"). reflexivity.
  - destruct (send_multispec_missing_key mgl03_env lamp
                {[ "cmd" := VStr "write"; "commands" := VList [] ]} initial)
      as [_ Hzigbee].
    { exists (VStr "write"). reflexivity. }
    destruct Hzigbee as (k & _ & _ & Hsend).
    + reflexivity.
    + exists (VList []). reflexivity.
    + left. reflexivity.
    + exists k. exact Hsend.
Defined.

(** ** Events of a run *)

Lemma performed_cons family ev evs :
  performed family (ev :: evs) = call_of family ev || performed family evs.
Proof. reflexivity. Qed.

Lemma performed_app family evs1 evs2 :
  performed family (evs1 ++ evs2)
  = performed family evs1 || performed family evs2.
Proof. apply existsb_app. Qed.

Lemma replied_cons family test ev evs :
  replied family test (ev :: evs)
  = reply_of family test ev || replied family test evs.
Proof. reflexivity. Qed.

Lemma replied_app family test evs1 evs2 :
  replied family test (evs1 ++ evs2)
  = replied family test evs1 || replied family test evs2.
Proof. apply existsb_app. Qed.

Lemma raised_cons ev evs : raised (ev :: evs) = raise_of ev || raised evs.
Proof. reflexivity. Qed.

Lemma raised_app evs1 evs2 : raised (evs1 ++ evs2) = raised evs1 || raised evs2.
Proof. apply existsb_app. Qed.

Lemma cancelled_in_cons ev evs :
  cancelled_in (ev :: evs) = cancel_of ev || cancelled_in evs.
Proof. reflexivity. Qed.

Lemma cancelled_in_app evs1 evs2 :
  cancelled_in (evs1 ++ evs2) = cancelled_in evs1 || cancelled_in evs2.
Proof. apply existsb_app. Qed.

Lemma performed_nil family : performed family [] = false.
Proof. reflexivity. Qed.

Lemma replied_nil family test : replied family test [] = false.
Proof. reflexivity. Qed.

Lemma raised_nil : raised [] = false.
Proof. reflexivity. Qed.

Lemma cancelled_in_nil : cancelled_in [] = false.
Proof. reflexivity. Qed.

#[global] Arguments performed : simpl never.
#[global] Arguments replied : simpl never.
#[global] Arguments raised : simpl never.
#[global] Arguments cancelled_in : simpl never.

Create Rewrite HintDb events.
#[global] Hint Rewrite performed_cons performed_app performed_nil
  replied_cons replied_app replied_nil raised_cons raised_app raised_nil
  cancelled_in_cons cancelled_in_app cancelled_in_nil : events.

Lemma replied_performed family test evs :
  performed family evs = false → replied family test evs = false.
Proof.
  unfold performed, replied. induction evs as [|[c [v|e]| | |] evs IH]; cbn.
  all: try exact IH; try reflexivity.
  all: intros [Hc Hevs]%orb_false_iff; rewrite ?Hc; cbn; auto.
Qed.

(** ** Running a method against an arbitrary environment *)

Lemma assoc_get_set k v d : assoc_get k (assoc_set k v d) = Some v.
Proof.
  induction d as [|[k' v'] d IH]; cbn.
  - rewrite String.eqb_refl. reflexivity.
  - destruct (String.eqb k' k) eqn:E; cbn.
    + rewrite String.eqb_refl. reflexivity.
    + rewrite E. exact IH.
Qed.

Lemma assoc_get_set_ne k k' v d :
  k ≠ k' → assoc_get k' (assoc_set k v d) = assoc_get k' d.
Proof.
  intros Hne. induction d as [|[k0 v0] d IH]; cbn.
  - apply String.eqb_neq in Hne. rewrite Hne. reflexivity.
  - destruct (String.eqb k0 k) eqn:E; cbn.
    + apply String.eqb_eq in E. subst k0.
      apply String.eqb_neq in Hne. rewrite Hne. reflexivity.
    + destruct (String.eqb k0 k'); [reflexivity | exact IH].
Qed.

Lemma new_events_app w w' evs :
  trace w' = trace w ++ evs → new_events w w' = evs.
Proof. intros H. unfold new_events. rewrite H. apply drop_app_length. Qed.

(** Case analysis on whatever the run [H] waits for next: the answer to a
    call, the shape of a value, a test. *)
Ltac next_case H :=
  match type of H with
  | context [truthy ?v] => destruct (truthy v) eqn:?
  | context [if eq_str ?v ?s then _ else _] => destruct (eq_str v s) eqn:?
  | context [if String.ltb ?a ?b then _ else _] =>
      destruct (String.ltb a b) eqn:?
  | context [if hasattr ?v ?s then _ else _] => destruct (hasattr v s) eqn:?
  | context [if is_Exception ?e then _ else _] => destruct e
  | context [match assoc_get ?k ?d with _ => _ end] =>
      destruct (assoc_get k d) eqn:?
  | context [match ?x with _ => _ end] => is_var x; destruct x
  | context [answer ?env ?tr ?c] => destruct (answer env tr c) eqn:?
  end.

(** Runs the method of [H : method args w = (r, w')] to its end, one case
    for every way the collaborators can answer. *)
Ltac run_method H :=
  unfold with_Session, finally, invoke, setitem, subscript, lt_str in H;
  munfold;
  repeat (cbn -[String.ltb] in H;
          rewrite ?assoc_get_set, ?assoc_get_set_ne in H by discriminate;
          try next_case H);
  try (injection H as <- <-).

(** The events of a finished run, as a list. *)
Ltac events :=
  cbn -[String.ltb] in *;
  erewrite new_events_app in * by (cbn; rewrite <- ?app_assoc; reflexivity);
  cbn [app] in *.

(** A hypothesis on the events of the run that does not hold for the
    events at hand. *)
Ltac absurd_events H :=
  unfold raised, cancelled_in, performed, replied in H;
  unfold falsy, model_is, has_model, version_below, version_from in H;
  cbn -[String.ltb] in H;
  rewrite ?assoc_get_set, ?assoc_get_set_ne in H by discriminate;
  repeat match goal with
         | E : ?l = _ |- _ =>
             lazymatch E with H => fail | _ => idtac end;
             match type of H with context [l] => rewrite E in H end
         | _ =>
             match type of H with
             | context [match ?x with _ => _ end] => is_var x; destruct x
             end
         end;
  cbn -[String.ltb] in H; discriminate H.

(** A goal between booleans that the equations at hand decide. *)
Ltac bool_goal :=
  unfold raised, cancelled_in, performed, replied;
  unfold falsy, model_is, has_model, version_below, version_from;
  cbn -[String.ltb];
  rewrite ?assoc_get_set, ?assoc_get_set_ne by discriminate;
  repeat match goal with
         | E : ?l = _ |- context [?l] => rewrite E
         end;
  cbn -[String.ltb]; first [reflexivity | congruence].

(** ** Telnet executor *)



(** ** Bootstrap *)

Lemma prepare_gateway_parts (env : Env) (self : MultiGateway) :
  prepare_gateway env self =
  def (
    try_except (
      '(sh, info) ← with_Session env (host self) (prepare_gateway_session env);
      prepare_gateway_listeners sh info)
    (λ e,
      debug "Can't prepare gateway" None (Some e);;
      return_ (VBool false))).
Proof. reflexivity. Qed.

(** What the statements inside the [async with] block do. *)
Lemma prepare_gateway_session_run (env : Env) (sh : value) (w : World) :
  let rb := (prepare_gateway_session env sh w).1 in
  let wb := (prepare_gateway_session env sh w).2 in
  ∃ evs,
    trace wb = trace w ++ evs
    ∧ listeners wb = listeners w
    ∧ session_facts env sh rb evs.
Proof.
  intros rb wb. subst rb wb. unfold session_facts.
  destruct (prepare_gateway_session env sh w) as [rb wb] eqn:Hrun.
  cbn [fst snd]. unfold prepare_gateway_session in Hrun.
  run_method Hrun.
  all: eexists; split;
    [cbn; rewrite <- ?app_assoc; cbn [app]; reflexivity|].
  all: split; [reflexivity|].
  all: split; [try exact I; try reflexivity|].
  all: repeat apply conj.
  all: try (intros e' He; try discriminate He; injection He as <-;
            first [left; reflexivity | right; eauto]).
  all: try (intros Hx; first [absurd_events Hx | repeat split; reflexivity]).
  all: try (intros Hx Hy;
            first [absurd_events Hx | absurd_events Hy
                  | split; reflexivity]).
  all: try (intros x Hx; try discriminate Hx; injection Hx as <-;
            eexists; repeat apply conj; try reflexivity; bool_goal).
  all: try (intros H1 H2 H3 H4;
            first [eexists; reflexivity | absurd_events H1
                  | absurd_events H2 | absurd_events H3
                  | destruct H4 as [H4|H4]; absurd_events H4]).
  all: reflexivity.
Qed.

(** What the registrations after the [async with] block do. *)
Lemma prepare_gateway_listeners_run (sh : value) (d : list (string * value))
    (m : value) (w : World) :
  assoc_get "model" d = Some m →
  (prepare_gateway_listeners sh (VDict d) w).1 = Returned (VBool true)
  ∧ trace (prepare_gateway_listeners sh (VDict d) w).2 = trace w
  ∧ ∀ k, listeners (prepare_gateway_listeners sh (VDict d) w).2 k
         = listeners w k
           ++ cycle_handlers (hasattr sh "read_db_bluetooth")
                (eq_str m "lumi.gateway.mgl001") k.
Proof.
  intros Hm. unfold prepare_gateway_listeners, subscript. rewrite Hm.
  munfold. unfold add_event_listner. cbn beta iota.
  destruct (hasattr sh "read_db_bluetooth"),
    (eq_str m "lumi.gateway.mgl001").
  all: split; [reflexivity|split; [reflexivity|]].
  all: intros []; cbn; rewrite <- ?app_assoc; reflexivity.
Qed.

Ltac finish_case Hrun Htr Hls :=
  injection Hrun as <- <-;
  split;
  [ apply new_events_app; cbn; rewrite Htr; cbn; rewrite <- !app_assoc;
    reflexivity
  | split; [reflexivity | cbn; exact Hls] ].

(** How a bootstrap goes, given how the statements inside the [async with]
    block end ([rb], with the events [body]) and what the release of the
    session answers ([ra]). *)
Lemma prepare_gateway_cases (env : Env) (self : MultiGateway) (w : World) :
  let r := (prepare_gateway env self w).1 in
  let w' := (prepare_gateway env self w).2 in
  let evs := new_events w w' in
  (∃ e, answer env (trace w) (Session_aenter (host self)) = Err e
        ∧ evs = ECall (Session_aenter (host self)) (Err e) :: caught_log e
        ∧ r = caught e
        ∧ listeners w' = listeners w)
  ∨ (∃ sh w1 wb body ra,
        let rb := (prepare_gateway_session env sh w1).1 in
        wb = (prepare_gateway_session env sh w1).2
        ∧ trace wb = trace w1 ++ body
        ∧ ra = answer env (trace wb) (Session_aexit sh)
        ∧ session_facts env sh rb body
        ∧ match ra, rb with
          | Err e, _ =>
              evs = ECall (Session_aenter (host self)) (Ok sh)
                      :: body ++ ECall (Session_aexit sh) ra :: caught_log e
              ∧ r = caught e ∧ listeners w' = listeners w
          | Ok _, Normal (sh', info) =>
              evs = ECall (Session_aenter (host self)) (Ok sh)
                      :: body ++ [ECall (Session_aexit sh) ra]
              ∧ r = Normal (VBool true)
              ∧ ∀ k, listeners w' k
                     = listeners w k
                       ++ cycle_handlers (hasattr sh' "read_db_bluetooth")
                            (model_is "lumi.gateway.mgl001" info) k
          | Ok _, Returned v =>
              evs = ECall (Session_aenter (host self)) (Ok sh)
                      :: body ++ [ECall (Session_aexit sh) ra]
              ∧ r = Normal v ∧ listeners w' = listeners w
          | Ok _, Raised e =>
              evs = ECall (Session_aenter (host self)) (Ok sh)
                      :: body ++ ECall (Session_aexit sh) ra :: caught_log e
              ∧ r = caught e ∧ listeners w' = listeners w
          | Ok _, _ => False
          end).
Proof.
  intros r w' evs. subst r evs w'.
  destruct (prepare_gateway env self w) as [r w'] eqn:Hrun.
  cbn [fst snd]. rewrite prepare_gateway_parts in Hrun.
  unfold with_Session, finally, invoke in Hrun; munfold.
  cbn -[prepare_gateway_session] in Hrun.
  destruct (answer env (trace w) (Session_aenter (host self)))
    as [sh|e] eqn:Henter; cbn -[prepare_gateway_session] in Hrun.
  - right.
    match type of Hrun with
    | context [prepare_gateway_session env sh ?w1] =>
        pose proof (prepare_gateway_session_run env sh w1) as Hbody;
        cbv zeta in Hbody;
        destruct Hbody as (body & Htr & Hls & Hfacts);
        pose proof Hfacts as (Hshape & _ & _ & _ & Hsucc & _);
        exists sh, w1, (prepare_gateway_session env sh w1).2, body,
          (answer env (trace (prepare_gateway_session env sh w1).2)
             (Session_aexit sh));
        destruct (prepare_gateway_session env sh w1) as [rb wb]
    end.
    cbn [fst snd] in *.
    split; [reflexivity|]. split; [exact Htr|]. split; [reflexivity|].
    split; [exact Hfacts|]. clear Hfacts.
    destruct rb as [[sh' info]|v|e| |]; try contradiction.
    + destruct (Hsucc _ eq_refl) as (info' & Hinfo & Hmodel & _).
      injection Hinfo as -> <-.
      destruct info as [| | | | |d|]; try discriminate Hmodel.
      cbn in Hmodel.
      destruct (assoc_get "model" d) as [m|] eqn:Hm; [|discriminate Hmodel].
      destruct (answer env (trace wb) (Session_aexit sh)) as [va|ea];
        [|destruct ea];
        cbn -[prepare_gateway_listeners] in Hrun.
      1: { match type of Hrun with
        | context [prepare_gateway_listeners sh (VDict d) ?w1] =>
            destruct (prepare_gateway_listeners_run sh d m w1 Hm)
              as (Hr & Htl & Hl);
            destruct (prepare_gateway_listeners sh (VDict d) w1) as [rl wl]
        end.
        cbn [fst snd] in *. subst rl. injection Hrun as <- <-.
        split; [|split; [reflexivity|]].
        -- apply new_events_app. rewrite Htl. cbn. rewrite Htr. cbn.
           rewrite <- !app_assoc. reflexivity.
        -- intros k. rewrite Hl. cbn. rewrite Hls. cbn.
           unfold model_is. rewrite Hm. reflexivity. }
      all: finish_case Hrun Htr Hls.
    + destruct (answer env (trace wb) (Session_aexit sh)) as [va|ea];
        [|destruct ea]; cbn in Hrun; finish_case Hrun Htr Hls.
    + destruct (answer env (trace wb) (Session_aexit sh)) as [va|ea];
        [destruct e|destruct ea]; cbn in Hrun; finish_case Hrun Htr Hls.
  - left. exists e. split; [reflexivity|].
    destruct e; cbn in Hrun; injection Hrun as <- <-.
    all: split;
      [apply new_events_app; cbn; rewrite <- ?app_assoc; reflexivity|].
    all: split; reflexivity.
Qed.

(** Case analysis on a bootstrap: the session cannot be opened, or it is
    opened and released. *)
Ltac bootstrap_cases env self w :=
  let Hc := fresh "Hc" in
  pose proof (prepare_gateway_cases env self w) as Hc; cbv zeta in Hc;
  destruct Hc as [(e & Henter & Hevs & Hr & Hl)
                 |(sh & w1 & wb & body & ra & Hwb & Htr & Hra & Hfacts
                   & Hcase)];
  [|destruct Hfacts as (Hshape & Hexn & Hconf & Hgate & Hsucc & Hcompl
                        & Hnoble & Hopen)].

(** Booleans over the events of a bootstrap, reduced to those over the
    events of its [async with] block. *)
Ltac ev_simpl :=
  autorewrite with events in *;
  unfold call_of, reply_of, raise_of, cancel_of, caught_log, caught in *;
  cbn in *;
  rewrite ?orb_false_l, ?orb_false_r, ?orb_true_l, ?orb_true_r in *.

(** C8: when [only_one] reports that another manager holds the gateway,
    [prepare_gateway] returns [False] and has fetched no identity, read no
    inventory and registered no listener. *)
Theorem prepare_gateway_conflict (env : Env) (self : MultiGateway)
    (w : World) :
  let r := (prepare_gateway env self w).1 in
  let w' := (prepare_gateway env self w).2 in
  let evs := new_events w w' in
  replied exclusion_check falsy evs = true →
  (cancelled_in evs = false → r = Normal (VBool false))
  ∧ performed identity_fetch evs = false
  ∧ performed inventory_read evs = false
  ∧ listeners w' = listeners w.
Proof.
  cbv zeta. intros Hin. bootstrap_cases env self w.
  - rewrite Hevs in *. destruct e; ev_simpl; discriminate Hin.
  - destruct ra as [va|ea];
      destruct (prepare_gateway_session env sh w1).1 as [[sh' info]|v|eb| |];
      try contradiction; try destruct ea; try destruct eb;
      destruct Hcase as (Hevs & Hr & Hl); rewrite Hevs in *; ev_simpl.
    all: destruct (Hconf Hin) as (Hrb & Hid & Hinv); try discriminate Hrb.
    all: injection Hrb as ->; rewrite Hr, Hl.
    all: repeat split; try assumption; try reflexivity.
    all: intros Hq; try reflexivity; discriminate Hq.
Qed.

Lemma prepare_gateway_conflict_witness :
  (prepare_gateway conflict_env gw initial).1 = Normal (VBool false)
  ∧ performed identity_fetch
      (new_events initial (prepare_gateway conflict_env gw initial).2) = false
  ∧ performed inventory_read
      (new_events initial (prepare_gateway conflict_env gw initial).2) = false
  ∧ listeners (prepare_gateway conflict_env gw initial).2 = listeners initial.
Proof.
  pose proof (prepare_gateway_conflict conflict_env gw initial) as H.
  cbv zeta in H. destruct H as (Hr & Hrest); [reflexivity|].
  split; [apply Hr; reflexivity | exact Hrest].
Defined.

(** C9: when the gateway reports the model [lumi.gateway.mgl03] and a
    version string that orders below [1.4.7_0160], [prepare_gateway]
    returns [False] and has read no inventory (and registered no
    listener). *)
Theorem prepare_gateway_firmware_gate (env : Env) (self : MultiGateway)
    (w : World) :
  let r := (prepare_gateway env self w).1 in
  let w' := (prepare_gateway env self w).2 in
  let evs := new_events w w' in
  replied info_fetch (model_is "lumi.gateway.mgl03") evs = true →
  replied version_fetch (version_below "1.4.7_0160") evs = true →
  (cancelled_in evs = false → r = Normal (VBool false))
  ∧ performed inventory_read evs = false
  ∧ listeners w' = listeners w.
Proof.
  cbv zeta. intros Hmodel Hversion. bootstrap_cases env self w.
  - rewrite Hevs in *. destruct e; ev_simpl; discriminate Hmodel.
  - destruct ra as [va|ea];
      destruct (prepare_gateway_session env sh w1).1 as [[sh' info]|v|eb| |];
      try contradiction; try destruct ea; try destruct eb;
      destruct Hcase as (Hevs & Hr & Hl); rewrite Hevs in *; ev_simpl.
    all: destruct (Hgate Hmodel Hversion) as (Hrb & Hinv);
      try discriminate Hrb.
    all: injection Hrb as ->; rewrite Hr, Hl.
    all: repeat split; try assumption; try reflexivity.
    all: intros Hq; try reflexivity; discriminate Hq.
Qed.

Lemma prepare_gateway_firmware_gate_witness :
  (prepare_gateway old_firmware_env gw initial).1 = Normal (VBool false)
  ∧ performed inventory_read
      (new_events initial (prepare_gateway old_firmware_env gw initial).2)
    = false
  ∧ listeners (prepare_gateway old_firmware_env gw initial).2
    = listeners initial.
Proof.
  pose proof (prepare_gateway_firmware_gate old_firmware_env gw initial) as H.
  cbv zeta in H. destruct H as (Hr & Hrest); [reflexivity|reflexivity|].
  split; [apply Hr; reflexivity | exact Hrest].
Defined.

(** A successful bootstrap: which inventories were read, and what the
    registry holds afterwards. *)
Lemma prepare_gateway_success (env : Env) (self : MultiGateway) (w : World) :
  let r := (prepare_gateway env self w).1 in
  let w' := (prepare_gateway env self w).2 in
  let evs := new_events w w' in
  r = Normal (VBool true) →
  raised evs = false
  ∧ performed ble_mesh_read evs = replied session_open has_bluetooth evs
  ∧ performed matter_read evs
    = replied info_fetch (model_is "lumi.gateway.mgl001") evs
  ∧ ∀ k, listeners w' k
         = listeners w k
           ++ cycle_handlers (replied session_open has_bluetooth evs)
                (replied info_fetch (model_is "lumi.gateway.mgl001") evs) k.
Proof.
  cbv zeta. intros Htrue. bootstrap_cases env self w.
  - rewrite Hr in Htrue. destruct e; discriminate Htrue.
  - destruct ra as [va|ea];
      destruct (prepare_gateway_session env sh w1).1 as [[sh' info]|v|eb| |];
      try contradiction; try destruct ea; try destruct eb;
      destruct Hcase as (Hevs & Hr & Hl); rewrite Hr in Htrue;
      try discriminate Htrue.
    + destruct (Hsucc _ eq_refl)
        as (info' & Hinfo & _ & Hquiet & Hble & Hmatter & Hmodel).
      injection Hinfo as -> <-.
      rewrite Hevs. ev_simpl.
      rewrite (replied_performed _ has_bluetooth _ Hopen).
      rewrite Hquiet, Hble, Hmatter, Hmodel, !orb_false_r.
      repeat split; try reflexivity. exact Hl.
    + subst v. discriminate Htrue.
Qed.






(** The BLE/mesh inventory, on the other hand, is gated by a probe of the
    session object. *)
Lemma ble_mesh_probe_gated : probe_gated ble_mesh_read.
Proof.
  exists "read_db_bluetooth". intros env self w Htrue.
  apply (prepare_gateway_success env self w Htrue).
Qed.

(** ** Run-state *)

Lemma single_live_count (w : World) :
  single_live w → (length (live_tasks w) ≤ 1)%nat.
Proof.
  unfold single_live, live_tasks. destruct w as [tr ls mt ts]. cbn.
  intros Hone.
  assert (∀ i j si sj, ts !! i = Some si → ts !! j = Some sj →
            task_done si = false → task_done sj = false → i = j) as Hsame.
  { intros i j si sj Hi Hj Hdi Hdj.
    pose proof (Hone i si Hi Hdi) as H1.
    pose proof (Hone j sj Hj Hdj) as H2. congruence. }
  clear Hone. induction ts as [|s ts IH]; cbn; [lia|].
  destruct (task_done s) eqn:Hs; cbn.
  - apply IH. intros i j si sj Hi Hj Hdi Hdj.
    assert (S i = S j)%nat by (eapply Hsame; eauto). lia.
  - assert (List.filter (λ s, negb (task_done s)) ts = []) as ->; [|cbn; lia].
    clear IH. assert (∀ j sj, ts !! j = Some sj → task_done sj = true) as Hd.
    { intros j sj Hj. destruct (task_done sj) eqn:Hdj; [reflexivity|].
      assert (0 = S j)%nat by (eapply Hsame; eauto). lia. }
    clear Hsame. induction ts as [|s' ts IH]; cbn; [reflexivity|].
    rewrite (Hd 0%nat s' eq_refl). cbn. apply IH.
    intros j sj Hj. apply (Hd (S j) sj Hj).
Qed.

Lemma single_live_suspend (env : Env) (w : World) :
  single_live w → single_live (suspend env w).
Proof.
  unfold single_live, suspend. cbn. intros Hone i s Hi Hs.
  rewrite list_lookup_imap in Hi.
  destruct (tasks w !! i) as [s0|] eqn:Hi0; [|discriminate Hi].
  cbn in Hi. apply (Hone i s0 Hi0).
  destruct (task_done s0) eqn:Hd; [|reflexivity].
  injection Hi as <-. congruence.
Qed.

Lemma single_live_invoke (env : Env) (c : call) (w : World) :
  single_live w → single_live (invoke env c w).2.
Proof.
  intros Hone. unfold invoke.
  destruct (answer env (trace w) c); cbn [snd];
    apply single_live_suspend; exact Hone.
Qed.

Lemma single_live_cancel (t : nat) (w : World) :
  single_live w → single_live (cancel t w).2.
Proof.
  unfold single_live, cancel. cbn. intros Hone i s Hi Hs.
  destruct (decide (i = t)) as [->|Hne].
  - rewrite list_lookup_alter_eq in Hi.
    destruct (tasks w !! t) as [s0|] eqn:Ht; [|discriminate Hi].
    cbn in Hi. apply (Hone t s0 Ht).
    destruct (task_done s0) eqn:Hd; [|reflexivity].
    injection Hi as <-. congruence.
  - rewrite list_lookup_alter_ne in Hi by congruence. eauto.
Qed.

Lemma single_live_round (env : Env) (t : nat) (r : reply) (w : World) :
  single_live w →
  single_live
    (suspend env
       (record (ECall (sleep 0.1) r)
          (set_tasks
             (alter (λ s, if task_done s then s else CancelRequested) t
                (tasks w))
             (record (ECancel t) w)))).
Proof.
  intros Hone. apply single_live_suspend.
  exact (single_live_cancel t w Hone).
Qed.

(** The polling loop of [stop]: it leaves normally only when the task
    reports cancelled, after rounds of cancel-and-sleep. *)
Lemma stop_loop_run (env : Env) (fuel : nat) (w : World) (t : nat) :
  main_task w = Some t →
  let r := (stop_loop env fuel w).1 in
  let w' := (stop_loop env fuel w).2 in
  main_task w' = Some t
  ∧ listeners w' = listeners w
  ∧ (single_live w → single_live w')
  ∧ (∃ rounds, trace w' = trace w ++ rounds ∧ polling t rounds)
  ∧ (r = Normal tt → tasks w' !! t = Some Cancelled)
  ∧ match r with Normal _ | Raised _ | Unfinished => True | _ => False end.
Proof.
  cbv zeta. revert w. induction fuel as [|fuel IH]; intros w Hmain.
  - cbn. repeat split; try discriminate; auto.
    exists []. split; [symmetry; apply app_nil_r | constructor].
  - cbn [stop_loop]. unfold get_main_task, cancelled, invoke. munfold.
    cbn -[stop_loop suspend cancel]. rewrite Hmain.
    destruct (tasks w !! t) as [[]|] eqn:Ht; cbn -[stop_loop suspend cancel].
    3: { repeat split; auto.
         exists []. split; [symmetry; apply app_nil_r | constructor]. }
    all: unfold cancel; cbn -[stop_loop suspend].
    all: match goal with
         | |- context [answer ?en ?tr ?c] =>
             destruct (answer en tr c) as [v|e] eqn:Hsleep
         end; cbn -[stop_loop suspend].
    all: match goal with
         | |- context [stop_loop ?en ?fu ?w1] =>
             destruct (IH w1) as (Hm & Hl & Hone & (rounds & Htr & Hpoll)
                                  & Hc & Hshape); [exact Hmain|];
             destruct (stop_loop en fu w1) as [r w']; cbn [fst snd] in *;
             destruct r as [[]| | | |]; try contradiction
         | _ => idtac
         end.
    all: repeat apply conj; try exact I; try assumption;
      try (cbn; assumption); try discriminate.
    all: try reflexivity.
    all: try (intros Hw;
              first [apply Hone; apply single_live_round; exact Hw
                    |apply single_live_round; exact Hw]).
    all: first
      [ exists (ECancel t :: ECall (sleep 0.1) (Ok v) :: rounds);
        split; [rewrite Htr; cbn; rewrite <- !app_assoc; reflexivity
               |constructor; exact Hpoll]
      | exists (ECancel t :: ECall (sleep 0.1) (Err e) :: []);
        split; [cbn; rewrite <- app_assoc; reflexivity
               |repeat constructor] ].
Qed.

Lemma stop_loop_cancelled (env : Env) (fuel : nat) (w : World) (t : nat) :
  main_task w = Some t → tasks w !! t = Some Cancelled →
  stop_loop env (S fuel) w = (Normal tt, w).
Proof.
  intros Hmain Ht. cbn [stop_loop]. unfold get_main_task, cancelled. munfold.
  cbn -[stop_loop]. rewrite Hmain. cbn -[stop_loop]. rewrite Ht. reflexivity.
Qed.

(** A task that has not finished by itself is cancelled within one round,
    when the scheduler honours the request and the sleep returns. *)
Lemma stop_loop_terminates (env : Env) (fuel : nat) (w : World) (t : nat)
    (s : TaskState) :
  main_task w = Some t → tasks w !! t = Some s → s ≠ Finished →
  (∀ tr, ∃ v, answer env tr (sleep 0.1) = Ok v) →
  (∀ tr i, scheduled env tr i CancelRequested = Cancelled) →
  (stop_loop env (S (S fuel)) w).1 = Normal tt.
Proof.
  intros Hmain Ht Hs Hsleep Hsched.
  assert (s = Cancelled ∨ s ≠ Cancelled) as [->|Hnc]
    by (destruct s; auto; right; discriminate).
  { rewrite (stop_loop_cancelled env _ w t Hmain Ht). reflexivity. }
  assert (task_done s = false) as Hlive by (destruct s; cbn; congruence).
  change (stop_loop env (S (S fuel)) w) with
    ((task ← get_main_task;
      match task with
      | None => raise (Exception "AttributeError")
      | Some task =>
          c ← cancelled task;
          if negb c then
            cancel task;; invoke env (sleep 0.1);; stop_loop env (S fuel)
          else pass
      end) w).
  unfold get_main_task, cancelled, cancel, invoke. munfold.
  cbn -[stop_loop suspend]. rewrite Hmain. cbn -[stop_loop suspend].
  rewrite Ht.
  assert ((match s with Cancelled => true | _ => false end) = false) as ->
    by (destruct s; cbn; congruence).
  cbn -[stop_loop suspend].
  match goal with
  | |- context [answer ?en ?tr ?c] =>
      destruct (Hsleep tr) as [v Hv]; rewrite Hv
  end.
  cbn -[stop_loop suspend].
  match goal with
  | |- context [stop_loop ?en ?fu ?w1] =>
      rewrite (stop_loop_cancelled en fuel w1 t); [reflexivity|exact Hmain|]
  end.
  unfold suspend. cbn. rewrite list_lookup_imap, list_lookup_alter_eq, Ht.
  cbn. rewrite Hlive. cbn. rewrite Hsched. reflexivity.
Qed.

(** [stop] with a task recorded. *)
Lemma stop_run (env : Env) (fuel : nat) (w : World) (t : nat) :
  main_task w = Some t →
  let r := (stop env fuel w).1 in
  let w' := (stop env fuel w).2 in
  (∃ rounds, new_events w w' = ELog DEBUG "stop" None None :: rounds
             ∧ polling t rounds)
  ∧ (∀ v, r = Normal v →
          v = VNone ∧ main_task w' = None ∧ tasks w' !! t = Some Cancelled)
  ∧ (r ≠ Normal VNone → main_task w' = Some t)
  ∧ (single_live w → single_live w').
Proof.
  cbv zeta. intros Hmain. unfold stop, get_main_task, set_main_task. munfold.
  cbn -[stop_loop]. rewrite Hmain. cbn -[stop_loop].
  match goal with
  | |- context [stop_loop ?en ?fu ?w0] =>
      destruct (stop_loop_run en fu w0 t Hmain)
        as (Hm & Hl & Hone & (rounds & Htr & Hpoll) & Hc & Hshape);
      destruct (stop_loop en fu w0) as [r w1]
  end.
  cbn [fst snd] in *.
  destruct r as [[]| | | |]; try contradiction; cbn.
  all: repeat apply conj.
  all: try (exists rounds; split; [|exact Hpoll]; apply new_events_app;
            cbn; rewrite Htr; cbn; rewrite <- app_assoc; reflexivity).
  all: try (intros v Hv; try discriminate Hv; injection Hv as <-;
            repeat split; auto).
  all: try (intros Hr; first [exact Hm | contradiction]).
  - intros Hw i s Hi Hs. exfalso. cbn in Hi.
    pose proof (Hone Hw i s Hi Hs) as Hi'.
    assert (i = t) as -> by congruence.
    rewrite (Hc eq_refl) in Hi. injection Hi as <-. discriminate Hs.
  - exact Hone.
  - exact Hone.
Qed.

(** C7: [start] does nothing when a task is recorded and otherwise
    records one new task; [stop] does nothing when no task is recorded and
    otherwise polls, one cancellation request and one sleep per round, and
    clears [main_task] only once the task reports cancelled; so at most one
    task of the gateway is live at any time. *)
Theorem run_state (env : Env) (w : World) :
  (is_Some (main_task w) → start w = (Normal VNone, w))
  ∧ (main_task w = None →
     (start w).1 = Normal VNone
     ∧ main_task (start w).2 = Some (length (tasks w))
     ∧ tasks (start w).2 = tasks w ++ [Pending])
  ∧ (∀ fuel, main_task w = None → stop env fuel w = (Normal VNone, w))
  ∧ (∀ fuel t, main_task w = Some t →
     (∃ rounds,
        new_events w (stop env fuel w).2
        = ELog DEBUG "stop" None None :: rounds
        ∧ polling t rounds)
     ∧ (∀ v, (stop env fuel w).1 = Normal v →
             v = VNone
             ∧ main_task (stop env fuel w).2 = None
             ∧ tasks (stop env fuel w).2 !! t = Some Cancelled)
     ∧ ((stop env fuel w).1 ≠ Normal VNone →
        main_task (stop env fuel w).2 = Some t))
  ∧ (∀ fuel t s, main_task w = Some t → tasks w !! t = Some s →
     s ≠ Finished →
     (∀ tr, ∃ v, answer env tr (sleep 0.1) = Ok v) →
     (∀ tr i, scheduled env tr i CancelRequested = Cancelled) →
     (stop env (S (S fuel)) w).1 = Normal VNone)
  ∧ (single_live w →
     (length (live_tasks w) ≤ 1)%nat
     ∧ single_live (start w).2
     ∧ (∀ fuel, single_live (stop env fuel w).2)
     ∧ (∀ c, single_live (invoke env c w).2)).
Proof.
  repeat apply conj.
  - intros [t Ht]. unfold start, get_main_task. munfold. cbn.
    rewrite Ht. reflexivity.
  - intros Hnone. unfold start, get_main_task, create_task, set_main_task.
    munfold. cbn. rewrite Hnone. cbn. auto.
  - intros fuel Hnone. unfold stop, get_main_task. munfold.
    cbn -[stop_loop]. rewrite Hnone. reflexivity.
  - intros fuel t Hmain.
    destruct (stop_run env fuel w t Hmain) as (H1 & H2 & H3 & _). auto.
  - intros fuel t s Hmain Ht Hs Hsleep Hsched.
    unfold stop, get_main_task, set_main_task. munfold.
    cbn -[stop_loop]. rewrite Hmain. cbn -[stop_loop].
    match goal with
    | |- context [stop_loop ?en ?fu ?w0] =>
        pose proof (stop_loop_terminates en fuel w0 t s Hmain Ht Hs
                      Hsleep Hsched) as Hend;
        destruct (stop_loop en fu w0) as [r w1]
    end.
    cbn [fst] in Hend. subst r. reflexivity.
  - intros Hone. repeat apply conj.
    + apply single_live_count. exact Hone.
    + destruct (main_task w) as [t|] eqn:Hmain.
      * unfold start, get_main_task. munfold. cbn. rewrite Hmain. exact Hone.
      * unfold start, get_main_task, create_task, set_main_task.
        munfold. cbn. rewrite Hmain. cbn.
        intros i s Hi Hs. cbn in *.
        destruct (lookup_app_Some (tasks w) [Pending] i s) as [Hcases _].
        destruct (Hcases Hi) as [Hold|[Hlen Hnew]].
        -- pose proof (Hone i s Hold Hs) as Himp. congruence.
        -- destruct (i - length (tasks w))%nat as [|n] eqn:Hd;
             [|discriminate Hnew].
           f_equal. lia.
    + intros fuel. destruct (main_task w) as [t|] eqn:Hmain.
      * apply (stop_run env fuel w t Hmain). exact Hone.
      * unfold stop, get_main_task. munfold.
        cbn -[stop_loop]. rewrite Hmain. exact Hone.
    + intros c. apply single_live_invoke. exact Hone.
Qed.

Lemma run_state_witness :
  start (start initial).2 = (Normal VNone, (start initial).2)
  ∧ stop mgl03_env 5 initial = (Normal VNone, initial)
  ∧ (stop mgl03_env 2 (start initial).2).1 = Normal VNone
  ∧ main_task (stop mgl03_env 2 (start initial).2).2 = None
  ∧ (length (live_tasks (start initial).2) ≤ 1)%nat.
Proof.
  pose proof (run_state mgl03_env initial)
    as (_ & Hstart & Hidle & _ & _ & Hone).
  pose proof (run_state mgl03_env (start initial).2)
    as (Hagain & _ & _ & Hstop & Hends & Hone').
  destruct (Hstart eq_refl) as (_ & Hmain & Htasks).
  assert (single_live initial) as Hinit.
  { intros i s Hi. cbn in Hi. rewrite lookup_nil in Hi. discriminate Hi. }
  destruct (Hone Hinit) as (_ & Hlive & _).
  assert ((stop mgl03_env 2 (start initial).2).1 = Normal VNone) as Hend.
  { apply (Hends 0%nat 0%nat Pending Hmain).
    - rewrite Htasks. reflexivity.
    - discriminate.
    - intros tr. eexists. reflexivity.
    - intros tr i. reflexivity. }
  repeat apply conj.
  - apply Hagain. rewrite Hmain. eexists. reflexivity.
  - apply Hidle. reflexivity.
  - exact Hend.
  - destruct (Hstop 2%nat 0%nat Hmain) as (_ & Hreturn & _).
    apply (Hreturn VNone Hend).
  - apply (Hone' Hlive).
Defined.

(** ** Supervisor *)

(** What leaves [enable_telnet]: a boolean, or the cancellation of the
    task. *)
Lemma enable_telnet_outcome (env : Env) (self : MultiGateway) (w : World) :
  match (enable_telnet env self w).1 with
  | Normal (VBool _) => True
  | Raised e => e = CancelledError ∧ ∃ tr c, answer env tr c = Err e
  | _ => False
  end.
Proof.
  destruct (enable_telnet env self w) as [r w'] eqn:Hrun.
  cbn [fst snd]. unfold enable_telnet in Hrun.
  run_method Hrun.
  all: try exact I.
  all: split; [reflexivity | eauto].
Qed.

(** What leaves [prepare_gateway]: a boolean, or the cancellation of the
    task; no [Exception] escapes. *)
Lemma prepare_gateway_outcome (env : Env) (self : MultiGateway) (w : World) :
  match (prepare_gateway env self w).1 with
  | Normal (VBool _) => True
  | Raised e => e = CancelledError ∧ ∃ tr c, answer env tr c = Err e
  | _ => False
  end.
Proof.
  bootstrap_cases env self w.
  - rewrite Hr. destruct e; cbn; try exact I. split; [reflexivity|eauto].
  - destruct ra as [va|ea];
      destruct (prepare_gateway_session env sh w1).1 as [[sh' info]|v|eb| |];
      try contradiction; destruct Hcase as (Hevs & Hr & Hl); rewrite Hr.
    all: try exact I.
    all: try (subst v; exact I).
    all: try (destruct ea; cbn; try exact I; split; [reflexivity|eauto]).
    destruct (Hexn eb eq_refl) as [Hexc|Hanswered].
    + unfold caught. rewrite Hexc. exact I.
    + destruct eb; cbn; try exact I. split; [reflexivity|exact Hanswered].
Qed.

(** A call only adds to the trace. *)
Lemma enable_telnet_extends (env : Env) (self : MultiGateway) (w : World) :
  ∃ evs, trace (enable_telnet env self w).2 = trace w ++ evs.
Proof.
  destruct (enable_telnet env self w) as [r w'] eqn:Hrun.
  cbn [fst snd]. unfold enable_telnet in Hrun.
  run_method Hrun.
  all: eexists; cbn; rewrite <- ?app_assoc; try reflexivity.
  all: symmetry; apply app_nil_r.
Qed.

Lemma prepare_gateway_extends (env : Env) (self : MultiGateway) (w : World) :
  ∃ evs, trace (prepare_gateway env self w).2 = trace w ++ evs.
Proof.
  destruct (prepare_gateway env self w) as [r w'] eqn:Hrun.
  cbn [fst snd]. rewrite prepare_gateway_parts in Hrun.
  unfold with_Session, finally, invoke in Hrun; munfold.
  cbn -[prepare_gateway_session] in Hrun.
  destruct (answer env (trace w) (Session_aenter (host self)))
    as [sh|e] eqn:Henter; cbn -[prepare_gateway_session] in Hrun.
  - match type of Hrun with
    | context [prepare_gateway_session ?en sh ?w1] =>
        pose proof (prepare_gateway_session_run en sh w1) as Hbody;
        cbv zeta in Hbody;
        destruct Hbody as (body & Htr & Hls & Hfacts);
        pose proof Hfacts as (Hshape & _ & _ & _ & Hsucc & _);
        destruct (prepare_gateway_session en sh w1) as [rb wb]
    end.
    cbn [fst snd] in *. clear Hfacts.
    destruct rb as [[sh' info]|v|eb| |]; try contradiction.
    + destruct (Hsucc _ eq_refl) as (info' & Hinfo & Hmodel & _).
      injection Hinfo as -> <-.
      destruct info as [| | | | |d|]; try discriminate Hmodel.
      cbn in Hmodel.
      destruct (assoc_get "model" d) as [m|] eqn:Hm; [|discriminate Hmodel].
      destruct (answer env (trace wb) (Session_aexit sh)) as [va|ea];
        [|destruct ea];
        cbn -[prepare_gateway_listeners] in Hrun.
      1: { match type of Hrun with
           | context [prepare_gateway_listeners sh (VDict d) ?w1] =>
               destruct (prepare_gateway_listeners_run sh d m w1 Hm)
                 as (Hr & Htl & Hl);
               destruct (prepare_gateway_listeners sh (VDict d) w1)
                 as [rl wl]
           end.
           cbn [fst snd] in *. subst rl. injection Hrun as <- <-.
           eexists. rewrite Htl. cbn. rewrite Htr. cbn.
           rewrite <- !app_assoc. reflexivity. }
      all: injection Hrun as <- <-; eexists; cbn; rewrite Htr; cbn;
        rewrite <- !app_assoc; reflexivity.
    + destruct (answer env (trace wb) (Session_aexit sh)) as [va|ea];
        [|destruct ea]; cbn in Hrun; injection Hrun as <- <-; eexists; cbn;
        rewrite Htr; cbn; rewrite <- !app_assoc; reflexivity.
    + destruct (answer env (trace wb) (Session_aexit sh)) as [va|ea];
        [destruct eb|destruct ea]; cbn in Hrun; injection Hrun as <- <-;
        eexists; cbn; rewrite Htr; cbn; rewrite <- !app_assoc; reflexivity.
  - destruct e; cbn in Hrun; injection Hrun as <- <-; eexists; cbn;
      rewrite <- ?app_assoc; reflexivity.
Qed.

(** One step in the case analysis of a cycle of the supervisor. *)
Ltac cycle_step :=
  cbn -[enable_telnet prepare_gateway suspend];
  match goal with
  | |- context [answer ?en ?tr ?c] =>
      let H := fresh "Hanswer" in
      destruct (answer en tr c) as [?|?] eqn:H
  | |- context [truthy ?v] => destruct (truthy v) eqn:?
  | |- context [enable_telnet ?en ?se ?w1] =>
      let Ho := fresh "Ho" in
      let Hx := fresh "Hextends" in
      pose proof (enable_telnet_outcome en se w1) as Ho;
      pose proof (enable_telnet_extends en se w1) as [? Hx];
      destruct (enable_telnet en se w1) as [[[|[]| | | | |]| |?| |] ?];
      cbn [fst snd] in Ho, Hx; try contradiction
  | |- context [prepare_gateway ?en ?se ?w1] =>
      let Ho := fresh "Ho" in
      let Hx := fresh "Hextends" in
      pose proof (prepare_gateway_outcome en se w1) as Ho;
      pose proof (prepare_gateway_extends en se w1) as [? Hx];
      destruct (prepare_gateway en se w1) as [[[|[]| | | | |]| |?| |] ?];
      cbn [fst snd] in Ho, Hx; try contradiction
  end.

(** A cycle ends by falling through or by [continue], unless a call it
    awaits raises: one of the calls of the loop itself, or any call that is
    cancelled. *)
Lemma run_forever_cycle_outcome (env : Env) (self : MultiGateway)
    (w : World) :
  match (run_forever_cycle env self w).1 with
  | Normal _ | Continue => True
  | Raised e =>
      ∃ tr c, answer env tr c = Err e
              ∧ (loop_level c = true ∨ e = CancelledError)
  | _ => False
  end.
Proof.
  unfold run_forever_cycle, handle_mqtt_messages_phase, invoke. munfold.
  repeat cycle_step.
  all: cbn -[suspend]; try exact I.
  all: try (eexists _, _; split; [eassumption|left; reflexivity]).
  all: match goal with
       | H : _ = CancelledError ∧ _ |- _ =>
           destruct H as (-> & tr & c & Hc);
           exists tr, c; split; [exact Hc|right; reflexivity]
       end.
Qed.






Lemma calls_of_app (evs1 evs2 : list Event) :
  calls_of (evs1 ++ evs2) = calls_of evs1 ++ calls_of evs2.
Proof.
  induction evs1 as [|[] evs1 IH]; cbn; rewrite ?IH; reflexivity.
Qed.






(** ** Registry of event handlers *)











(** ** More on the command router *)

Lemma comprehension_cases s items w :
  (Forall (λ i, container i = true) items
   ∧ comprehension s items w = (Normal (List.filter (tagged s) items), w))
  ∨ (¬ Forall (λ i, container i = true) items
     ∧ comprehension s items w = (Raised TypeError, w)).
Proof.
  induction items as [|i items IH].
  - left. split; [constructor|reflexivity].
  - destruct (container i) eqn:Hi.
    + destruct IH as [[HF IH]|[HF IH]].
      * left. split; [constructor; assumption|].
        apply comprehension_filter. constructor; assumption.
      * right. split; [intros HF'; inversion HF'; contradiction|].
        cbn [comprehension]. unfold contains, mbind, M_bind.
        destruct i; try discriminate Hi; cbn [member]; cbn; rewrite IH;
          reflexivity.
    + right. split; [intros HF'; inversion HF'; congruence|].
      cbn [comprehension]. unfold contains, mbind, M_bind.
      destruct i; try discriminate Hi; reflexivity.
Qed.

(** X1: a mesh device or a mesh group gets the payload through
    [miot_send], a Matter device through [matter_send]: one call, with the
    payload as it is, whatever its keys; [send] returns [None] when the
    adapter returns and raises what the adapter raises. *)
Theorem send_single_adapter (env : Env) (device : XDevice) (data : dict)
    (w : World) :
  type device = MESH ∨ type device = GROUP ∨ type device = MATTER →
  let c := if DeviceType_eqb (type device) MATTER
           then matter_send device data else miot_send device data in
  let rep := answer env (trace w) c in
  send env device data w
  = (match rep with Ok _ => Normal VNone | Err e => Raised e end,
     suspend env (record (ECall c rep) w)).
Proof.
  intros [Hty|[Hty|Hty]]; cbv zeta; unfold send; rewrite Hty;
    cbn [DeviceType_eqb orb]; unfold invoke; munfold;
    destruct (answer env (trace w) _); reflexivity.
Qed.

Lemma send_single_adapter_witness :
  send mgl03_env bulb hub_multispec initial
  = (Normal VNone,
     suspend mgl03_env
       (record (ECall (miot_send bulb hub_multispec) (Ok VNone)) initial)).
Proof.
  exact (send_single_adapter mgl03_env bulb hub_multispec initial
           (or_introl eq_refl)).
Defined.

(** X2: [send] does nothing at all, and returns [None], for a device of a
    type that it does not route (a BLE device), for the gateway when the
    payload has neither [cmd] nor [method], and for a Zigbee device when
    the payload has neither [cmd] nor [commands]. *)
Theorem send_without_route (env : Env) (device : XDevice) (data : dict)
    (w : World) :
  type device = BLE
  ∨ (type device = GATEWAY ∧ data !! "cmd" = None
     ∧ data !! "method" = None)
  ∨ (type device = ZIGBEE ∧ data !! "cmd" = None
     ∧ data !! "commands" = None) →
  send env device data w = (Normal VNone, w).
Proof.
  intros [Hty|[(Hty & Ha & Hb)|(Hty & Ha & Hb)]]; unfold send; rewrite Hty;
    cbn [DeviceType_eqb orb];
    rewrite ?(key_in_None _ _ Ha), ?(key_in_None _ _ Hb); reflexivity.
Qed.

Lemma send_without_route_witness :
  send mgl03_env thermometer hub_multispec initial = (Normal VNone, initial)
  ∧ send mgl03_env hub {[ "did" := VStr "lumi.0" ]} initial
    = (Normal VNone, initial).
Proof.
  split.
  - apply send_without_route. left. reflexivity.
  - apply send_without_route. right. left. repeat split.
Defined.

(** X3: the multispec branch for the gateway iterates over [params] and
    tests every entry with [in]: when [params] cannot be iterated, or one
    of its entries does not support [in], [send] raises [TypeError] before
    any adapter is called. *)
Theorem send_multispec_bad_params (env : Env) (device : XDevice)
    (data : dict) (w : World) (params : value) :
  type device = GATEWAY →
  is_Some (data !! "cmd") → is_Some (data !! "method") →
  data !! "params" = Some params →
  (∀ items, (iterate params w).1 = Normal items →
            ¬ Forall (λ i, container i = true) items) →
  send env device data w = (Raised TypeError, w).
Proof.
  intros Hty [cmd Hcmd] [method Hmethod] Hparams Hbad.
  unfold send. rewrite Hty. cbn [DeviceType_eqb].
  rewrite (key_in_Some _ _ _ Hcmd), (key_in_Some _ _ _ Hmethod).
  munfold. rewrite Hcmd, Hparams.
  destruct params as [| | | |l|d|]; cbn [iterate]; munfold; try reflexivity.
  all: match goal with
       | |- context [comprehension ?s ?items ?w0] =>
           destruct (comprehension_cases s items w0) as [[HF _]|[_ ->]];
           [exfalso; exact (Hbad items eq_refl HF)|reflexivity]
       end.
Qed.

Lemma send_multispec_bad_params_witness :
  send mgl03_env hub
    {[ "cmd" := VStr "write"; "method" := VStr "set_properties";
       "params" := VList [VInt 1] ]} initial
  = (Raised TypeError, initial)
  ∧ send mgl03_env hub
      {[ "cmd" := VStr "write"; "method" := VStr "set_properties";
         "params" := VNone ]} initial
    = (Raised TypeError, initial).
Proof.
  split.
  - apply (send_multispec_bad_params mgl03_env hub _ initial (VList [VInt 1])).
    + reflexivity.
    + exists (VStr "write"). reflexivity.
    + exists (VStr "set_properties"). reflexivity.
    + reflexivity.
    + intros items Hitems. injection Hitems as <-.
      intros HF. inversion HF as [|? ? Hi]. discriminate Hi.
  - apply (send_multispec_bad_params mgl03_env hub _ initial VNone).
    + reflexivity.
    + exists (VStr "write"). reflexivity.
    + exists (VStr "set_properties"). reflexivity.
    + reflexivity.
    + intros items Hitems. discriminate Hitems.
Defined.

(** One step in the case analysis of a run of [send]. *)
Ltac send_step H :=
  match type of H with
  | context [match ?d !! ?k with _ => _ end] => destruct (d !! k) eqn:?
  | context [bool_decide (is_Some (?d !! ?k))] =>
      destruct (d !! k) eqn:?
  | context [iterate ?v] => destruct v; cbn [iterate] in H
  | context [comprehension ?s ?items ?w0] =>
      let HF := fresh "HF" in
      let Hc := fresh "Hc" in
      destruct (comprehension_cases s items w0) as [[HF Hc]|[HF Hc]];
      rewrite Hc in H; clear Hc
  | context [answer ?en ?tr ?c] => destruct (answer en tr c) eqn:?
  end.

(** X4: what [send] raises.  A [KeyError] or [TypeError] of its own is
    raised before any adapter is called, with nothing changed (the payload
    is a value: the adapters do not change it); an exception of an
    adapter leaves [send] as it is, and the adapter that raised is the
    last one called.  Otherwise [send] returns [None].  At most two calls
    are made. *)
Theorem send_errors (env : Env) (device : XDevice) (data : dict) (w : World) :
  let r := (send env device data w).1 in
  let w' := (send env device data w).2 in
  let evs := new_events w w' in
  (length evs ≤ 2)%nat
  ∧ (∀ e, r = Raised e →
       (evs = [] ∧ w' = w ∧ (e = TypeError ∨ ∃ k, e = KeyError k))
       ∨ ∃ c, last evs = Some (ECall c (Err e)))
  ∧ (raised evs = true →
     ∃ c e, r = Raised e ∧ last evs = Some (ECall c (Err e)))
  ∧ (raised evs = false → evs ≠ [] → r = Normal VNone)
  ∧ match r with Normal VNone | Raised _ => True | _ => False end.
Proof.
  cbv zeta.
  destruct (send env device data w) as [r w'] eqn:Hrun. cbn [fst snd].
  unfold send, key_in, invoke in Hrun. munfold. unfold raise in Hrun.
  destruct (type device); cbn [DeviceType_eqb orb] in Hrun.
  all: repeat (cbn -[suspend record] in Hrun; send_step Hrun).
  all: cbn -[suspend record] in Hrun.
  all: try (injection Hrun as <- <-).
  all: erewrite new_events_app
         by (cbn; rewrite <- ?app_assoc; try reflexivity;
             symmetry; apply app_nil_r).
  all: try contradiction.
  all: cbn [app].
  all: repeat apply conj; try exact I; cbn [length]; try lia.
  all: try (intros e' He; try discriminate He; injection He as <-;
            first [ left; repeat split; eauto; fail
                  | right; eexists; reflexivity ]).
  all: try (intros Hq;
            first [discriminate Hq | eexists _, _; split; reflexivity]).
  all: try (intros Hq Hn;
            first [reflexivity | discriminate Hq | contradiction]).
Qed.

Lemma send_errors_witness :
  ∃ c e, (send broken_adapter_env lamp zigbee_multispec initial).1 = Raised e
         ∧ last (new_events initial
                   (send broken_adapter_env lamp zigbee_multispec initial).2)
           = Some (ECall c (Err e)).
Proof.
  pose proof (send_errors broken_adapter_env lamp zigbee_multispec initial)
    as H.
  cbv zeta in H. destruct H as (_ & _ & Hraised & _).
  exact (Hraised eq_refl).
Defined.

(** ** Opening the telnet port *)

(** X5: [enable_telnet] without a token in the options (or with an empty
    one) returns [False] and calls nothing.  With a token it makes one
    call, [core_utils.enable_telnet] with the host, the token and the
    [key] option ([None] when absent), and logs what came of it: it
    returns [True] exactly when the answer is the string [ok], and [False]
    when the call raises an [Exception]; only a cancellation passes
    through. *)
Theorem enable_telnet_result (env : Env) (self : MultiGateway) (w : World) :
  let token := dict_get (options self) "token" in
  let c := core_utils_enable_telnet (host self) token
             (dict_get (options self) "key") in
  let r := (enable_telnet env self w).1 in
  let w' := (enable_telnet env self w).2 in
  (truthy token = false → r = Normal (VBool false) ∧ w' = w)
  ∧ (truthy token = true →
     match answer env (trace w) c with
     | Ok resp =>
         r = Normal (VBool (eq_str resp "ok"))
         ∧ new_events w w'
           = [ECall c (Ok resp); ELog DEBUG "enable_telnet" (Some resp) None]
     | Err e =>
         r = (if is_Exception e then Normal (VBool false) else Raised e)
         ∧ new_events w w'
           = ECall c (Err e)
             :: (if is_Exception e
                 then [ELog DEBUG "enable_telnet" None (Some e)] else [])
     end)
  ∧ listeners w' = listeners w ∧ main_task w' = main_task w.
Proof.
  cbv zeta.
  destruct (enable_telnet env self w) as [r w'] eqn:Hrun.
  cbn [fst snd]. unfold enable_telnet in Hrun.
  run_method Hrun.
  all: repeat apply conj; try reflexivity; try discriminate.
  all: intros _.
  all: repeat match goal with
              | E : answer _ _ _ = _ |- _ => rewrite E; clear E
              end.
  all: cbn; split; try reflexivity.
  all: apply new_events_app; cbn; rewrite <- ?app_assoc; reflexivity.
Qed.

Lemma enable_telnet_result_witness :
  ((enable_telnet mgl03_env gw_without_token initial).1
   = Normal (VBool false)
   ∧ (enable_telnet mgl03_env gw_without_token initial).2 = initial)
  ∧ (enable_telnet unreachable_env gw initial).1 = Normal (VBool false)
  ∧ (enable_telnet telnet_env gw initial).1 = Normal (VBool true).
Proof.
  pose proof (enable_telnet_result mgl03_env gw_without_token initial) as H0.
  pose proof (enable_telnet_result unreachable_env gw initial) as H1.
  pose proof (enable_telnet_result telnet_env gw initial) as H2.
  cbv zeta in H0, H1, H2.
  destruct H0 as (H0 & _). destruct H1 as (_ & H1 & _).
  destruct H2 as (_ & H2 & _).
  split; [|split].
  - exact (H0 eq_refl).
  - exact (proj1 (H1 eq_refl)).
  - exact (proj1 (H2 eq_refl)).
Defined.

(** ** More on the telnet executor *)

(** The run of [telnet_command], one case for every command and every way
    the collaborators can answer. *)
Ltac telnet_cases Hrun :=
  unfold telnet_command in Hrun;
  repeat match type of Hrun with
         | context [String.eqb ?cmd ?s] =>
             is_var cmd; destruct (String.eqb cmd s) eqn:?
         end;
  run_method Hrun; events.

(** X6: the calls of [telnet_command], when none of them raises: the
    session is opened, the calls of the command are made in the order of
    the source ([openmiio_restart]: the agent is killed, one second of
    sleep, the agent is prepared; [lock_firmware] and [unlock_firmware]:
    the lock is set, then checked), and the session is released.  A name
    that is not a command opens and releases the session all the same. *)
Theorem telnet_command_calls (env : Env) (self : MultiGateway)
    (cmd : string) (w : World) :
  let evs := new_events w (telnet_command env self cmd w).2 in
  raised evs = false →
  ∃ sh, opened_session evs = Some sh
        ∧ calls_of evs
          = Session_aenter (host self) :: telnet_calls cmd sh
            ++ [Session_aexit sh].
Proof.
  cbv zeta.
  destruct (telnet_command env self cmd w) as [r w'] eqn:Hrun.
  cbn [snd]. unfold telnet_calls. telnet_cases Hrun.
  all: intros Hq; try absurd_events Hq.
  all: eexists; split; reflexivity.
Qed.

Lemma telnet_command_calls_witness :
  ∃ sh, calls_of (new_events initial
                    (telnet_command mgl03_env gw "openmiio_restart"
                       initial).2)
        = [Session_aenter "192.168.1.10"; exec sh "killall openmiio_agent";
           sleep 1; openmiio_prepare_gateway sh; Session_aexit sh].
Proof.
  destruct (telnet_command_calls mgl03_env gw "openmiio_restart" initial
              eq_refl) as (sh & _ & Hcalls).
  exists sh. exact Hcalls.
Defined.

(** X7: what [telnet_command] returns when no call raises: [True] for
    [run_ftp], [reboot] and [openmiio_restart]; for [check_firmware_lock]
    the answer of the check as it is, whatever its type; for
    [unlock_firmware], [True] exactly when the check that follows the
    unlocking answers [False] itself. *)
Theorem telnet_command_returns (env : Env) (self : MultiGateway)
    (cmd : string) (w : World) :
  let r := (telnet_command env self cmd w).1 in
  let evs := new_events w (telnet_command env self cmd w).2 in
  raised evs = false →
  (cmd = "run_ftp" ∨ cmd = "reboot" ∨ cmd = "openmiio_restart" →
   r = Normal (VBool true))
  ∧ (cmd = "check_firmware_lock" →
     ∃ sh locked, ECall (check_firmware_lock sh) (Ok locked) ∈ evs
                  ∧ r = Normal locked)
  ∧ (cmd = "unlock_firmware" →
     r = Normal (VBool (replied lock_check is_False evs))
     ∧ performed (λ c, match c with
                       | lock_firmware _ false => true
                       | _ => false
                       end) evs = true).
Proof.
  cbv zeta.
  destruct (telnet_command env self cmd w) as [r w'] eqn:Hrun.
  cbn [fst snd]. intros Hq. repeat apply conj.
  - intros [ -> | [ -> | -> ] ]; telnet_cases Hrun; try reflexivity;
      absurd_events Hq.
  - intros ->. telnet_cases Hrun; try absurd_events Hq.
    eexists _, _. split; [|reflexivity].
    do 2 (apply elem_of_cons; right). apply elem_of_cons. left. reflexivity.
  - intros ->. telnet_cases Hrun; try absurd_events Hq.
    all: unfold replied, performed; cbn; rewrite ?orb_false_r.
    all: split; reflexivity.
Qed.

Lemma telnet_command_returns_witness :
  (telnet_command mgl03_env gw "reboot" initial).1 = Normal (VBool true)
  ∧ (telnet_command (lock_env (VInt 1)) gw "check_firmware_lock" initial).1
    = Normal (VInt 1)
  ∧ (telnet_command (lock_env VNone) gw "unlock_firmware" initial).1
    = Normal (VBool false)
  ∧ (telnet_command (lock_env (VBool false)) gw "unlock_firmware" initial).1
    = Normal (VBool true).
Proof.
  pose proof (telnet_command_returns mgl03_env gw "reboot" initial) as H1.
  pose proof (telnet_command_returns (lock_env (VInt 1)) gw
                "check_firmware_lock" initial) as H2.
  pose proof (telnet_command_returns (lock_env VNone) gw
                "unlock_firmware" initial) as H3.
  pose proof (telnet_command_returns (lock_env (VBool false)) gw
                "unlock_firmware" initial) as H4.
  cbv zeta in H1, H2, H3, H4.
  destruct (H1 eq_refl) as (H1' & _).
  destruct (H2 eq_refl) as (_ & H2' & _).
  destruct (H3 eq_refl) as (_ & _ & H3').
  destruct (H4 eq_refl) as (_ & _ & H4').
  repeat apply conj.
  - apply H1'. right. left. reflexivity.
  - destruct (H2' eq_refl) as (sh & locked & Hin & Hr).
    rewrite Hr. f_equal.
    cbn in Hin.
    repeat (apply elem_of_cons in Hin as [Hin|Hin];
            [try discriminate Hin; injection Hin as _ ->; reflexivity|]).
    apply elem_of_nil in Hin. contradiction.
  - exact (proj1 (H3' eq_refl)).
  - exact (proj1 (H4' eq_refl)).
Defined.

(** X8: [telnet_command] works inside one session and gives it back: the
    first call asks for the session and, once the session is handed out,
    the last call releases it, however the command ends; the method
    returns in every case but the cancellation of one of its calls (no
    [Exception] escapes), and it leaves the handlers and the recorded task
    alone. *)
Theorem telnet_command_session (env : Env) (self : MultiGateway)
    (cmd : string) (w : World) :
  let r := (telnet_command env self cmd w).1 in
  let w' := (telnet_command env self cmd w).2 in
  let evs := new_events w w' in
  session_scoped (host self) evs
  ∧ match r with
    | Normal _ => True
    | Raised e => e = CancelledError ∧ cancelled_in evs = true
    | _ => False
    end
  ∧ (cancelled_in evs = false → ∃ v, r = Normal v)
  ∧ listeners w' = listeners w ∧ main_task w' = main_task w.
Proof.
  cbv zeta.
  destruct (telnet_command env self cmd w) as [r w'] eqn:Hrun.
  cbn [fst snd]. unfold session_scoped, times. telnet_cases Hrun.
  all: repeat apply conj; try reflexivity; try exact I.
  all: try (intros Hq; first [eexists; reflexivity | absurd_events Hq]).
  all: unfold cancelled_in; cbn.
  all: match goal with e : exn |- _ => destruct e end; reflexivity.
Qed.

Lemma telnet_command_session_witness :
  ∃ v, (telnet_command mgl03_env gw "reboot" initial).1 = Normal v.
Proof.
  pose proof (telnet_command_session mgl03_env gw "reboot" initial) as H.
  cbv zeta in H. destruct H as (_ & _ & Hreturns & _).
  exact (Hreturns eq_refl).
Defined.

(** ** More on the bootstrap *)

Lemma prepare_gateway_session_order (env : Env) (sh : value) (w : World) :
  let rb := (prepare_gateway_session env sh w).1 in
  let wb := (prepare_gateway_session env sh w).2 in
  ∃ evs, trace wb = trace w ++ evs ∧ session_order sh rb evs.
Proof.
  intros rb wb. subst rb wb. unfold session_order.
  destruct (prepare_gateway_session env sh w) as [rb wb] eqn:Hrun.
  cbn [fst snd]. unfold prepare_gateway_session in Hrun.
  run_method Hrun.
  all: eexists; split;
    [cbn; rewrite <- ?app_assoc; cbn [app]; reflexivity|].
  all: split; [reflexivity|].
  all: repeat apply conj.
  all: try (intros x Hx; try discriminate Hx; injection Hx as <-;
            eexists _, _; repeat apply conj; try reflexivity;
            try (repeat first [ apply elem_of_cons; left; reflexivity
                              | apply elem_of_cons; right ]; fail);
            try (unfold bootstrap_calls, has_bluetooth; bool_goal);
            first [left; bool_goal | right; bool_goal]).
  all: try (intros e' He; try discriminate He; injection He as <-;
            split; [intros He'; try discriminate He'; try subst; bool_goal
                   |intros Hq; first [ absurd_events Hq
                                     | split; [auto|reflexivity] ]]).
  all: try (intros Hx; unfold lacks_model in Hx;
            first [ absurd_events Hx
                  | split; [reflexivity|eexists; reflexivity] ]).
  all: try (intros Hx Hy; unfold not_str, is_str in Hy;
            first [ absurd_events Hx | absurd_events Hy
                  | split; reflexivity ]).
Qed.

Lemma calls_of_caught_log (e : exn) : calls_of (caught_log e) = [].
Proof. destruct e; reflexivity. Qed.

Lemma filter_calls_nil (family : call → bool) (evs : list Event) :
  performed family evs = false → List.filter family (calls_of evs) = [].
Proof.
  induction evs as [|[c r| | |] evs IH]; autorewrite with events; cbn;
    try exact IH; [reflexivity|].
  destruct (family c); [discriminate|exact IH].
Qed.

(** The events of the statements inside the [async with] block, with what
    [session_facts] and [session_order] say of them. *)
Ltac bootstrap_order env sh w1 Hwb Htr :=
  let Ho := fresh "Ho" in
  let body' := fresh "body'" in
  let Htr' := fresh "Htr'" in
  pose proof (prepare_gateway_session_order env sh w1) as Ho;
  cbv zeta in Ho;
  destruct Ho as (body' & Htr' & Hclose & Hnormal & Hraise & Hlacks & Hvtype);
  rewrite <- Hwb in Htr'; rewrite Htr in Htr';
  apply app_inv_head in Htr'; subst body'.

(** X9: a bootstrap works inside one session and gives it back: the first
    call of [prepare_gateway] asks for the session and, once the session is
    handed out, the last call releases it, on every way out of the block
    (the gateway is held by another manager, the firmware is not
    supported, a call raises or is cancelled, or all went well). *)
Theorem prepare_gateway_session_scoped (env : Env) (self : MultiGateway)
    (w : World) :
  session_scoped (host self)
    (new_events w (prepare_gateway env self w).2).
Proof.
  unfold session_scoped, times. bootstrap_cases env self w.
  - rewrite Hevs. cbn. rewrite calls_of_caught_log.
    destruct e; repeat split; reflexivity.
  - bootstrap_order env sh w1 Hwb Htr.
    assert (∀ tail, calls_of tail = [] →
              let evs := ECall (Session_aenter (host self)) (Ok sh)
                           :: body ++ ECall (Session_aexit sh) ra :: tail in
              head (calls_of evs) = Some (Session_aenter (host self))
              ∧ length (List.filter session_open (calls_of evs)) = 1%nat
              ∧ match opened_session evs with
                | Some sh0 =>
                    last (calls_of evs) = Some (Session_aexit sh0)
                    ∧ length (List.filter session_close (calls_of evs))
                      = 1%nat
                | None => calls_of evs = [Session_aenter (host self)]
                end) as Hshape'.
    { intros tail Htail. cbn. rewrite calls_of_app. cbn. rewrite Htail.
      rewrite !List.filter_app, (filter_calls_nil _ _ Hopen),
        (filter_calls_nil _ _ Hclose). cbn.
      repeat split.
      change (Session_aenter (host self)
              :: calls_of body ++ [Session_aexit sh])
        with ((Session_aenter (host self) :: calls_of body)
              ++ [Session_aexit sh]).
      apply last_snoc. }
    destruct ra as [va|ea];
      destruct (prepare_gateway_session env sh w1).1 as [[sh' info]|v|eb| |];
      try contradiction; destruct Hcase as (Hevs & _); rewrite Hevs.
    all: first [ apply (Hshape' []); reflexivity
               | apply (Hshape' (caught_log _)); apply calls_of_caught_log ].
Qed.

Lemma last_raise_app (evs1 evs2 : list Event) :
  last_raise (evs1 ++ evs2)
  = match last_raise evs2 with
    | Some e => Some e
    | None => last_raise evs1
    end.
Proof.
  induction evs1 as [|ev evs1 IH]; cbn.
  - destruct (last_raise evs2); reflexivity.
  - rewrite IH. destruct (last_raise evs2); reflexivity.
Qed.

Lemma last_raise_caught_log (e : exn) : last_raise (caught_log e) = None.
Proof. destruct e; reflexivity. Qed.

(** The exception that leaves the statements inside the [async with]
    block is the one of their last call that raised, or else one of their
    own, which is an [Exception]. *)
Lemma prepare_gateway_session_last_raise (env : Env) (sh : value)
    (w : World) :
  let rb := (prepare_gateway_session env sh w).1 in
  let wb := (prepare_gateway_session env sh w).2 in
  ∃ evs,
    trace wb = trace w ++ evs
    ∧ match rb with
      | Raised e =>
          last_raise evs = Some e
          ∨ (last_raise evs = None ∧ is_Exception e = true)
      | _ => last_raise evs = None
      end.
Proof.
  intros rb wb. subst rb wb.
  destruct (prepare_gateway_session env sh w) as [rb wb] eqn:Hrun.
  cbn [fst snd]. unfold prepare_gateway_session in Hrun.
  run_method Hrun.
  all: eexists; split;
    [cbn; rewrite <- ?app_assoc; cbn [app]; reflexivity|].
  all: cbn; first [reflexivity | left; reflexivity
                  | right; split; reflexivity].
Qed.

(** X10: what leaves [prepare_gateway]: [True] or [False] (never [None],
    never an [Exception]), or else a [CancelledError]; and the
    [CancelledError] leaves it exactly when the last of its calls that
    raised was cancelled.  (A cancellation inside the session that is
    followed by an [Exception] of the release gives [False].) *)
Theorem prepare_gateway_returns_bool (env : Env) (self : MultiGateway)
    (w : World) :
  let r := (prepare_gateway env self w).1 in
  let evs := new_events w (prepare_gateway env self w).2 in
  ((∃ b, r = Normal (VBool b))
   ∨ (r = Raised CancelledError ∧ cancelled_in evs = true))
  ∧ (cancelled_in evs = false → ∃ b, r = Normal (VBool b))
  ∧ (r = Raised CancelledError ↔ last_raise evs = Some CancelledError).
Proof.
  cbv zeta.
  assert ((∃ b, (prepare_gateway env self w).1 = Normal (VBool b))
          ∨ ((prepare_gateway env self w).1 = Raised CancelledError
             ∧ cancelled_in (new_events w (prepare_gateway env self w).2)
               = true)) as Hor.
  { bootstrap_cases env self w.
    - rewrite Hr, Hevs. destruct e; cbn; eauto.
    - bootstrap_order env sh w1 Hwb Htr.
      destruct ra as [va|ea];
        destruct (prepare_gateway_session env sh w1).1
          as [[sh' info]|v|eb| |];
        try contradiction; destruct Hcase as (Hevs & Hr & _);
        rewrite Hr, Hevs.
      all: try (left; eexists; reflexivity).
      all: try (subst v; left; eexists; reflexivity).
      all: try (destruct ea; cbn; try (left; eexists; reflexivity);
                right; split; [reflexivity|]; ev_simpl; reflexivity).
      destruct (Hraise eb eq_refl) as [Hcancel Hlocal].
      destruct eb; cbn; try (left; eexists; reflexivity).
      right. split; [reflexivity|]. ev_simpl. rewrite (Hcancel eq_refl).
      reflexivity. }
  split; [exact Hor|]. split.
  { intros Hq. destruct Hor as [Hb|[_ Hc]]; [exact Hb|congruence]. }
  clear Hor. bootstrap_cases env self w.
  - rewrite Hr, Hevs. destruct e; cbn; split; intros H;
      first [reflexivity | discriminate H].
  - pose proof (prepare_gateway_session_last_raise env sh w1) as Hlast.
    cbv zeta in Hlast. destruct Hlast as (body' & Htr' & Hlast).
    rewrite <- Hwb in Htr'. rewrite Htr in Htr'.
    apply app_inv_head in Htr'. subst body'.
    destruct ra as [va|ea];
      destruct (prepare_gateway_session env sh w1).1
        as [[sh' info]|v|eb| |];
      try contradiction; destruct Hcase as (Hevs & Hr & _);
      rewrite Hr, Hevs.
    all: change (ECall (Session_aenter (host self)) (Ok sh) :: body ++ ?l)
           with ([ECall (Session_aenter (host self)) (Ok sh)] ++ body ++ l).
    all: rewrite !last_raise_app.
    all: try (destruct ea; cbn; split; intros H;
              first [reflexivity | discriminate H]).
    all: cbn [last_raise]; try rewrite last_raise_caught_log.
    all: try (rewrite Hlast; cbn; split; intros H; try subst v;
              discriminate H).
    destruct Hlast as [Hl|[Hl He]]; rewrite Hl; cbn.
    + destruct eb; cbn; split; intros H;
        first [reflexivity | discriminate H].
    + destruct eb; try discriminate He; cbn; split; intros H;
        discriminate H.
Qed.

Lemma prepare_gateway_returns_bool_witness :
  (∃ b, (prepare_gateway conflict_env gw initial).1 = Normal (VBool b))
  ∧ (prepare_gateway interrupted_env gw initial).1 ≠ Raised CancelledError
  ∧ cancelled_in
      (new_events initial (prepare_gateway interrupted_env gw initial).2)
    = true.
Proof.
  pose proof (prepare_gateway_returns_bool conflict_env gw initial) as H1.
  pose proof (prepare_gateway_returns_bool interrupted_env gw initial) as H2.
  cbv zeta in H1, H2.
  destruct H1 as (_ & Hreturns & _). destruct H2 as (_ & _ & Hlast).
  split; [exact (Hreturns eq_refl)|]. split; [|reflexivity].
  intros Hr. apply (proj1 Hlast) in Hr. discriminate Hr.
Defined.

(** X11: the calls of a bootstrap that returns [True], in their order:
    the session is opened; the exclusion check; the device information and
    the firmware version; [base_read_device] with the information in which
    the version is stored under [version]; the Zigbee inventories and the
    agent; the BLE and mesh inventories when the session has the Bluetooth
    database; the Matter inventory for the model [lumi.gateway.mgl001];
    and the release of the session. *)
Theorem prepare_gateway_call_order (env : Env) (self : MultiGateway)
    (w : World) :
  let r := (prepare_gateway env self w).1 in
  let evs := new_events w (prepare_gateway env self w).2 in
  r = Normal (VBool true) →
  ∃ sh d version,
    let info := VDict (assoc_set "version" version d) in
    ECall (Session_aenter (host self)) (Ok sh) ∈ evs
    ∧ ECall (get_miio_info sh) (Ok (VDict d)) ∈ evs
    ∧ ECall (get_version sh) (Ok version) ∈ evs
    ∧ calls_of evs
      = Session_aenter (host self) :: bootstrap_calls sh info
        ++ [Session_aexit sh].
Proof.
  cbv zeta. intros Htrue. bootstrap_cases env self w.
  - rewrite Hr in Htrue. destruct e; discriminate Htrue.
  - bootstrap_order env sh w1 Hwb Htr.
    destruct ra as [va|ea];
      destruct (prepare_gateway_session env sh w1).1 as [[sh' info]|v|eb| |];
      try contradiction; destruct Hcase as (Hevs & Hr & _);
      rewrite Hr in Htrue.
    all: try (destruct ea; discriminate Htrue).
    all: try (destruct eb; discriminate Htrue).
    + destruct (Hnormal _ eq_refl)
        as (d & version & Hx & Hcalls & Hinfo & Hversion & _).
      exists sh, d, version. rewrite Hevs. repeat apply conj.
      * apply elem_of_cons. left. reflexivity.
      * apply elem_of_cons. right. apply elem_of_app. left. exact Hinfo.
      * apply elem_of_cons. right. apply elem_of_app. left. exact Hversion.
      * cbn. rewrite calls_of_app, Hcalls. reflexivity.
    + subst v. discriminate Htrue.
Qed.

Lemma prepare_gateway_call_order_witness :
  ∃ sh info,
    calls_of (new_events initial (prepare_gateway mgl03_env gw initial).2)
    = Session_aenter "192.168.1.10" :: bootstrap_calls sh info
      ++ [Session_aexit sh].
Proof.
  destruct (prepare_gateway_call_order mgl03_env gw initial eq_refl)
    as (sh & d & version & _ & _ & _ & Hcalls).
  eexists _, _. exact Hcalls.
Defined.

(** X12: [prepare_gateway] returns [True] exactly when none of its calls
    raises, the exclusion check answers a true value, the device
    information has a model, and the model is not [lumi.gateway.mgl03] or
    the firmware version is a string that does not order below
    [1.4.7_0160]; for the other models the version is not looked at. *)
Theorem prepare_gateway_success_iff (env : Env) (self : MultiGateway)
    (w : World) :
  let r := (prepare_gateway env self w).1 in
  let evs := new_events w (prepare_gateway env self w).2 in
  r = Normal (VBool true)
  ↔ raised evs = false
    ∧ replied exclusion_check falsy evs = false
    ∧ replied info_fetch has_model evs = true
    ∧ (replied info_fetch (model_is "lumi.gateway.mgl03") evs = false
       ∨ replied version_fetch (version_from "1.4.7_0160") evs = true).
Proof.
  cbv zeta. bootstrap_cases env self w.
  - rewrite Hr, Hevs. split.
    + intros Htrue. destruct e; discriminate Htrue.
    + intros (Hq & _). destruct e; ev_simpl; discriminate Hq.
  - bootstrap_order env sh w1 Hwb Htr.
    destruct ra as [va|ea];
      destruct (prepare_gateway_session env sh w1).1 as [[sh' info]|v|eb| |]
        eqn:Hrb;
      try contradiction; destruct Hcase as (Hevs & Hr & _);
      rewrite Hr, Hevs.
    all: split; [intros Htrue|intros (Hq & Hone & Hmodel & Hfw)].
    all: try (destruct ea; discriminate Htrue).
    all: try (destruct eb; discriminate Htrue).
    all: try (subst v; discriminate Htrue).
    all: try reflexivity.
    all: try (destruct ea; ev_simpl; discriminate Hq).
    + destruct (Hnormal _ eq_refl)
        as (d & version & _ & _ & _ & _ & H1 & H2 & H3).
      destruct (Hsucc _ eq_refl) as (info' & _ & _ & H0 & _).
      ev_simpl. rewrite H0, H1, H2. repeat split. exact H3.
    + exfalso. ev_simpl. destruct Hcompl as [info' Hinfo]; auto.
      discriminate Hinfo.
    + exfalso. destruct eb; ev_simpl; destruct Hcompl as [info' Hinfo];
        auto; discriminate Hinfo.
Qed.

Lemma prepare_gateway_success_iff_witness :
  raised (new_events initial (prepare_gateway mgl03_env gw initial).2) = false
  ∧ (prepare_gateway telnet_env gw initial).1 = Normal (VBool true).
Proof.
  pose proof (prepare_gateway_success_iff mgl03_env gw initial) as H1.
  pose proof (prepare_gateway_success_iff telnet_env gw initial) as H2.
  cbv zeta in H1, H2. split.
  - exact (proj1 (proj1 H1 eq_refl)).
  - apply (proj2 H2). repeat split; try reflexivity. left. reflexivity.
Defined.

(** X13: an identity that cannot be read ends the bootstrap before any
    inventory is read and before any handler is registered, with [False]
    (unless a call is cancelled): when the device information has no
    [model] (or is no dict at all), and when the model is
    [lumi.gateway.mgl03] and the firmware version is not a string, so that
    it cannot be compared. *)
Theorem prepare_gateway_unreadable_identity (env : Env)
    (self : MultiGateway) (w : World) :
  let r := (prepare_gateway env self w).1 in
  let w' := (prepare_gateway env self w).2 in
  let evs := new_events w w' in
  replied info_fetch lacks_model evs = true
  ∨ (replied info_fetch (model_is "lumi.gateway.mgl03") evs = true
     ∧ replied version_fetch not_str evs = true) →
  (cancelled_in evs = false → r = Normal (VBool false))
  ∧ performed inventory_read evs = false
  ∧ listeners w' = listeners w.
Proof.
  cbv zeta. intros Hin. bootstrap_cases env self w.
  - rewrite Hevs in Hin.
    destruct Hin as [Hin|[Hin _]]; destruct e; ev_simpl; discriminate Hin.
  - bootstrap_order env sh w1 Hwb Htr.
    assert (performed inventory_read body = false
            ∧ ∃ eb, (prepare_gateway_session env sh w1).1 = Raised eb)
      as [Hinv [eb Hrb]].
    { destruct ra as [va|ea];
        destruct (prepare_gateway_session env sh w1).1
          as [[sh' info]|v|eb| |];
        try contradiction; try destruct ea; try destruct eb;
        destruct Hcase as (Hevs & _); rewrite Hevs in Hin; ev_simpl.
      all: destruct Hin as [Hin|[Hin Hin']];
        [destruct (Hlacks Hin) as [Hi [eb' Hrb']]
        |destruct (Hvtype Hin Hin') as [Hi Hrb']].
      all: try discriminate Hrb'.
      all: split; [exact Hi|eauto]. }
    rewrite Hrb in Hcase. destruct (Hraise eb Hrb) as [Hcb _].
    clear Hnormal Hsucc Hcompl Hconf Hgate Hexn Hlacks Hvtype Hraise.
    destruct ra as [va|ea]; destruct Hcase as (Hevs & Hr & Hl);
      rewrite Hevs, Hr, Hl.
    all: repeat apply conj; try reflexivity.
    all: try (intros Hq; first [destruct ea | destruct eb]; ev_simpl;
              first [reflexivity | discriminate Hq
                    | rewrite orb_true_r in Hq; discriminate Hq
                    | rewrite (Hcb eq_refl) in Hq; discriminate Hq]).
    all: first [destruct ea; destruct eb | destruct eb]; ev_simpl;
      rewrite ?Hinv; reflexivity.
Qed.

Lemma prepare_gateway_unreadable_identity_witness :
  (prepare_gateway anonymous_env gw initial).1 = Normal (VBool false)
  ∧ (prepare_gateway versionless_env gw initial).1 = Normal (VBool false)
  ∧ listeners (prepare_gateway versionless_env gw initial).2
    = listeners initial.
Proof.
  pose proof (prepare_gateway_unreadable_identity anonymous_env gw initial)
    as H1.
  pose proof (prepare_gateway_unreadable_identity versionless_env gw initial)
    as H2.
  cbv zeta in H1, H2.
  destruct (H1 (or_introl eq_refl)) as (H1' & _).
  destruct (H2 (or_intror (conj eq_refl eq_refl))) as (H2' & _ & H2'').
  split; [exact (H1' eq_refl)|split; [exact (H2' eq_refl)|exact H2'']].
Defined.

Lemma replied_impl (family : call → bool) (test test' : value → bool)
    (evs : list Event) :
  (∀ v, test v = true → test' v = true) →
  replied family test evs = true → replied family test' evs = true.
Proof.
  intros Himpl. induction evs as [|[c [v|e]| | |] evs IH];
    autorewrite with events; cbn; try exact IH; [discriminate|].
  destruct (family c); cbn; [|exact IH].
  destruct (test v) eqn:Hv; cbn.
  - rewrite (Himpl v Hv). reflexivity.
  - intros Hrest. rewrite (IH Hrest). apply orb_true_r.
Qed.

Lemma version_prefix_below (v : value) :
  version_prefix "1.4.10" v = true → version_below "1.4.7_0160" v = true.
Proof.
  destruct v as [| | |s| | |]; try discriminate.
  cbn [version_prefix version_below].
  intros Hp.
  repeat (destruct s as [|? s]; [discriminate Hp|];
          cbn [String.prefix] in Hp;
          match type of Hp with
          | context [Ascii.ascii_dec ?a ?b] =>
              destruct (Ascii.ascii_dec a b) as [<-|]; [|discriminate Hp]
          end).
  reflexivity.
Qed.

(** X14: the firmware gate compares the version strings character by
    character, not number by number: for the model [lumi.gateway.mgl03] a
    version that starts with [1.4.10] orders below [1.4.7_0160], and the
    bootstrap is refused, with [False] and with no inventory read. *)
Theorem prepare_gateway_version_by_characters (env : Env)
    (self : MultiGateway) (w : World) :
  let r := (prepare_gateway env self w).1 in
  let w' := (prepare_gateway env self w).2 in
  let evs := new_events w w' in
  replied info_fetch (model_is "lumi.gateway.mgl03") evs = true →
  replied version_fetch (version_prefix "1.4.10") evs = true →
  (cancelled_in evs = false → r = Normal (VBool false))
  ∧ performed inventory_read evs = false
  ∧ listeners w' = listeners w.
Proof.
  cbv zeta. intros Hmodel Hversion.
  apply (replied_impl _ _ _ _ version_prefix_below) in Hversion.
  bootstrap_cases env self w.
  - rewrite Hevs in *. destruct e; ev_simpl; discriminate Hmodel.
  - destruct ra as [va|ea];
      destruct (prepare_gateway_session env sh w1).1 as [[sh' info]|v|eb| |];
      try contradiction; try destruct ea; try destruct eb;
      destruct Hcase as (Hevs & Hr & Hl); rewrite Hevs in *; ev_simpl.
    all: destruct (Hgate Hmodel Hversion) as (Hrb & Hinv);
      try discriminate Hrb.
    all: injection Hrb as ->; rewrite Hr, Hl.
    all: repeat split; try assumption; try reflexivity.
    all: intros Hq; try reflexivity; discriminate Hq.
Qed.

Lemma prepare_gateway_version_by_characters_witness :
  (prepare_gateway patch10_env gw initial).1 = Normal (VBool false)
  ∧ performed inventory_read
      (new_events initial (prepare_gateway patch10_env gw initial).2)
    = false.
Proof.
  destruct (prepare_gateway_version_by_characters patch10_env gw initial
              eq_refl eq_refl) as (Hr & Hinv & _).
  split; [exact (Hr eq_refl)|exact Hinv].
Defined.

(** ** More on the run-state and the supervisor *)

Lemma suspend_tasks_lookup_done (env : Env) (w : World) (t : nat)
    (s : TaskState) :
  tasks w !! t = Some s → task_done s = true →
  tasks (suspend env w) !! t = Some s.
Proof.
  intros Ht Hs. unfold suspend. cbn. rewrite list_lookup_imap, Ht. cbn.
  rewrite Hs. reflexivity.
Qed.

Lemma stop_loop_finished (env : Env) (fuel : nat) (w : World) (t : nat) :
  main_task w = Some t → tasks w !! t = Some Finished →
  (∀ tr, ∃ v, answer env tr (sleep 0.1) = Ok v) →
  (stop_loop env fuel w).1 = Unfinished
  ∧ main_task (stop_loop env fuel w).2 = Some t
  ∧ length (trace (stop_loop env fuel w).2)
    = (length (trace w) + 2 * fuel)%nat.
Proof.
  intros Hmain Ht Hsleep. revert w Hmain Ht.
  induction fuel as [|fuel IH]; intros w Hmain Ht.
  - cbn. repeat split; [exact Hmain|lia].
  - cbn [stop_loop]. unfold get_main_task, cancelled, cancel, invoke.
    munfold. cbn -[stop_loop suspend]. rewrite Hmain.
    cbn -[stop_loop suspend]. rewrite Ht. cbn -[stop_loop suspend].
    match goal with
    | |- context [answer ?en ?tr ?c] => destruct (Hsleep tr) as [v ->]
    end.
    cbn -[stop_loop suspend].
    match goal with
    | |- context [stop_loop env fuel ?w1] =>
        destruct (IH w1) as (Hr & Hm & Hlen);
        [exact Hmain
        |apply suspend_tasks_lookup_done; [|reflexivity]; cbn;
         rewrite list_lookup_alter_eq, Ht; reflexivity
        |destruct (stop_loop env fuel w1) as [r w']]
    end.
    cbn [fst snd] in *. subst r. repeat split; [exact Hm|].
    rewrite Hlen. cbn. rewrite !length_app. cbn. lia.
Qed.

(** X15: [stop] waits for [main_task.cancelled()].  When the task has
    ended by itself (it is done and was not cancelled), a cancellation
    request has no effect on it and [cancelled()] stays false: while the
    sleeps return, [stop] polls for ever, one request and one sleep per
    round, and [main_task] is never cleared. *)
Theorem stop_polls_forever_after_finish (env : Env) (w : World) (t : nat)
    (fuel : nat) :
  main_task w = Some t → tasks w !! t = Some Finished →
  (∀ tr, ∃ v, answer env tr (sleep 0.1) = Ok v) →
  (stop env fuel w).1 = Unfinished
  ∧ main_task (stop env fuel w).2 = Some t
  ∧ length (new_events w (stop env fuel w).2) = (1 + 2 * fuel)%nat.
Proof.
  intros Hmain Ht Hsleep.
  unfold stop, get_main_task, set_main_task. munfold.
  cbn -[stop_loop]. rewrite Hmain. cbn -[stop_loop].
  match goal with
  | |- context [stop_loop env fuel ?w0] =>
      destruct (stop_loop_finished env fuel w0 t Hmain Ht Hsleep)
        as (Hr & Hm & Hlen);
      destruct (stop_loop env fuel w0) as [r w1]
  end.
  cbn [fst snd] in *. subst r. cbn. repeat split; [exact Hm|].
  unfold new_events. rewrite length_drop, Hlen. cbn.
  rewrite ?length_app. cbn. lia.
Qed.

Lemma stop_polls_forever_after_finish_witness :
  (stop mgl03_env 7 after_crash).1 = Unfinished
  ∧ main_task (stop mgl03_env 7 after_crash).2 = Some 0%nat
  ∧ length (new_events after_crash (stop mgl03_env 7 after_crash).2)
    = 15%nat.
Proof.
  apply (stop_polls_forever_after_finish mgl03_env after_crash 0 7).
  - reflexivity.
  - reflexivity.
  - intros tr. exists VNone. reflexivity.
Defined.

Lemma suspend_tasks_length (env : Env) (w : World) :
  length (tasks (suspend env w)) = length (tasks w).
Proof. unfold suspend. cbn. apply length_imap. Qed.

Lemma stop_loop_tasks_length (env : Env) (fuel : nat) (w : World) :
  length (tasks (stop_loop env fuel w).2) = length (tasks w).
Proof.
  revert w. induction fuel as [|fuel IH]; intros w; [reflexivity|].
  cbn [stop_loop]. unfold get_main_task, cancelled, cancel, invoke.
  munfold. cbn -[stop_loop suspend].
  destruct (main_task w) as [t|]; [|reflexivity].
  cbn -[stop_loop suspend].
  destruct (tasks w !! t) as [[]|]; cbn -[stop_loop suspend];
    try reflexivity.
  all: match goal with
       | |- context [answer ?en ?tr ?c] => destruct (answer en tr c)
       end; cbn -[stop_loop suspend].
  all: try match goal with
           | |- context [stop_loop ?en ?fu ?w1] =>
               specialize (IH w1);
               destruct (stop_loop en fu w1) as [[[]| | | |] w'];
               cbn [fst snd] in *; rewrite IH
           end.
  all: rewrite suspend_tasks_length; cbn; apply length_alter.
Qed.

(** X16: a gateway can be started again after it was stopped: [start],
    a [stop] that returns, and [start] again leave a new pending task
    recorded in [main_task], next to the first one, which is cancelled;
    the second [start] is not taken for a repetition of the first. *)
Theorem start_stop_start (env : Env) (w : World) (fuel : nat) :
  main_task w = None →
  let w1 := (start w).2 in
  let w2 := (stop env fuel w1).2 in
  let w3 := (start w2).2 in
  (stop env fuel w1).1 = Normal VNone →
  main_task w1 = Some (length (tasks w))
  ∧ main_task w2 = None
  ∧ main_task w3 = Some (S (length (tasks w)))
  ∧ tasks w3 !! length (tasks w) = Some Cancelled
  ∧ tasks w3 !! S (length (tasks w)) = Some Pending.
Proof.
  cbv zeta. intros Hnone Hstop.
  assert (main_task (start w).2 = Some (length (tasks w))
          ∧ tasks (start w).2 = tasks w ++ [Pending]) as [Hmain Htasks].
  { unfold start, get_main_task, create_task, set_main_task. munfold. cbn.
    rewrite Hnone. cbn. auto. }
  destruct (stop_run env fuel (start w).2 _ Hmain) as (_ & Hret & _).
  cbv zeta in Hret. destruct (Hret VNone Hstop) as (_ & Hcleared & Hcancelled).
  assert (length (tasks (stop env fuel (start w).2).2)
          = S (length (tasks w))) as Hlen.
  { unfold stop, get_main_task, set_main_task. munfold.
    cbn -[stop_loop start]. rewrite Hmain. cbn -[stop_loop start].
    match goal with
    | |- context [stop_loop env fuel ?w0] =>
        pose proof (stop_loop_tasks_length env fuel w0) as Hl;
        destruct (stop_loop env fuel w0) as [[[]| | | |] w4]
    end.
    all: cbn [fst snd] in *; cbn -[start]; rewrite Hl; cbn -[start];
      rewrite Htasks, length_app; cbn; lia. }
  split; [exact Hmain|]. split; [exact Hcleared|].
  unfold start at 1 3 5, get_main_task, create_task, set_main_task. munfold.
  cbn -[start stop]. rewrite Hcleared. cbn -[start stop]. rewrite Hlen.
  split; [reflexivity|]. split.
  - rewrite lookup_app_l by (rewrite Hlen; lia). exact Hcancelled.
  - rewrite lookup_app_r by (rewrite Hlen; lia). rewrite Hlen.
    replace (S (length (tasks w)) - S (length (tasks w)))%nat with 0%nat
      by lia.
    reflexivity.
Qed.

Lemma start_stop_start_witness :
  main_task (start (stop mgl03_env 2 (start initial).2).2).2 = Some 1%nat
  ∧ tasks (start (stop mgl03_env 2 (start initial).2).2).2
    = [Cancelled; Pending].
Proof.
  destruct (start_stop_start mgl03_env initial 2 eq_refl eq_refl)
    as (_ & _ & Hmain & _).
  split; [exact Hmain|reflexivity].
Defined.

(** X17: [run_forever] has no [try]: it ends only with an exception that
    one of its own calls raised ([check_port], a sleep,
    [handle_mqtt_messages]) or with the cancellation of a call; and an
    exception of the port probe does end it, there is no further cycle. *)
Theorem run_forever_ends (env : Env) (self : MultiGateway) (w : World) :
  (∀ fuel e, (run_forever env self fuel w).1 = Raised e →
     ∃ tr c, answer env tr c = Err e
             ∧ (loop_level c = true ∨ e = CancelledError))
  ∧ (∀ fuel e,
       answer env (trace w) (check_port (host self) 23) = Err e →
       run_forever env self (S fuel) w
       = (Raised e,
          suspend env
            (record (ECall (check_port (host self) 23) (Err e)) w))).
Proof.
  split.
  - intros fuel. revert w. induction fuel as [|fuel IH]; intros w e.
    + discriminate.
    + unfold run_forever, def in *. cbn [while_True].
      pose proof (run_forever_cycle_outcome env self w) as Hcycle.
      destruct (run_forever_cycle env self w) as [[[]| |e'| |] w'];
        cbn [fst] in Hcycle; try contradiction; try apply IH.
      cbn. intros He. injection He as <-. exact Hcycle.
  - intros fuel e Hprobe. unfold run_forever, def. cbn [while_True].
    unfold run_forever_cycle, invoke. munfold. rewrite Hprobe. reflexivity.
Qed.

Lemma run_forever_ends_witness :
  (run_forever offline_env gw 5 initial).1 = Raised (Exception "OSError")
  ∧ ∃ tr c, answer offline_env tr c = Err (Exception "OSError")
            ∧ (loop_level c = true
               ∨ Exception "OSError" = CancelledError).
Proof.
  destruct (run_forever_ends offline_env gw initial) as [Honly Hprobe].
  pose proof (Hprobe 4%nat (Exception "OSError") eq_refl) as Hrun.
  split.
  - rewrite Hrun. reflexivity.
  - apply (Honly 5%nat). rewrite Hrun. reflexivity.
Defined.

(** The calls of [n] cycles that only probe the port and sleep. *)
Lemma while_True_idle (env : Env) (self : MultiGateway) (fuel : nat)
    (w : World) :
  truthy (dict_get (options self) "token") = false →
  (∀ tr, ∃ v, answer env tr (check_port (host self) 23) = Ok v
              ∧ truthy v = false) →
  (∀ tr, ∃ v, answer env tr (sleep 30) = Ok v) →
  (while_True fuel (run_forever_cycle env self) w).1 = Unfinished
  ∧ ∃ evs,
      trace (while_True fuel (run_forever_cycle env self) w).2
      = trace w ++ evs
      ∧ calls_of evs
        = concat (replicate fuel [check_port (host self) 23; sleep 30]).
Proof.
  intros Htoken Hprobe Hsleep. revert w.
  induction fuel as [|fuel IH]; intros w.
  - split; [reflexivity|]. exists []. split; [|reflexivity].
    symmetry. apply app_nil_r.
  - cbn [while_True].
    assert (∃ p s,
              run_forever_cycle env self w
              = (Continue,
                 suspend env
                   (record (ECall (sleep 30) (Ok s))
                      (suspend env
                         (record (ECall (check_port (host self) 23) (Ok p))
                            w))))) as (p & s & ->).
    { unfold run_forever_cycle, enable_telnet, invoke. munfold.
      destruct (Hprobe (trace w)) as (p & -> & Hp). cbn -[suspend].
      rewrite Hp. cbn -[suspend]. rewrite Htoken. cbn -[suspend].
      match goal with
      | |- context [answer env ?tr (sleep 30)] =>
          destruct (Hsleep tr) as (s & ->)
      end.
      exists p, s. reflexivity. }
    match goal with
    | |- context [while_True fuel _ ?w1] =>
        destruct (IH w1) as (Hr & evs & Htr & Hcalls)
    end.
    split; [exact Hr|].
    eexists. split.
    + rewrite Htr. cbn. rewrite <- !app_assoc. reflexivity.
    + cbn. rewrite Hcalls. reflexivity.
Qed.

(** X18: a gateway without a token whose telnet port stays closed is
    never bootstrapped: while the sleeps return, every cycle of
    [run_forever] is the probe of the port and a sleep of 30 seconds, and
    nothing else is called (no attempt to open the port, no session). *)
Theorem run_forever_without_token (env : Env) (self : MultiGateway)
    (w : World) (fuel : nat) :
  truthy (dict_get (options self) "token") = false →
  (∀ tr, ∃ v, answer env tr (check_port (host self) 23) = Ok v
              ∧ truthy v = false) →
  (∀ tr, ∃ v, answer env tr (sleep 30) = Ok v) →
  (run_forever env self fuel w).1 = Unfinished
  ∧ calls_of (new_events w (run_forever env self fuel w).2)
    = concat (replicate fuel [check_port (host self) 23; sleep 30]).
Proof.
  intros Htoken Hprobe Hsleep. unfold run_forever, def.
  destruct (while_True_idle env self fuel w Htoken Hprobe Hsleep)
    as (Hr & evs & Htr & Hcalls).
  destruct (while_True fuel (run_forever_cycle env self) w) as [r w'].
  cbn [fst snd] in *. subst r. cbn [fst snd]. split; [reflexivity|].
  rewrite (new_events_app _ _ _ Htr). exact Hcalls.
Qed.

Lemma run_forever_without_token_witness :
  calls_of (new_events initial
              (run_forever closed_env gw_without_token 2 initial).2)
  = [check_port "192.168.1.10" 23; sleep 30;
     check_port "192.168.1.10" 23; sleep 30].
Proof.
  refine (proj2 (run_forever_without_token closed_env gw_without_token
                   initial 2 eq_refl _ _)).
  - intros tr. exists (VBool false). split; reflexivity.
  - intros tr. exists VNone. reflexivity.
Defined.
